(** * The masking surface of the inpainting editor

    A shallow embedding of [src/components/ImageEditor.tsx] (the dual-canvas
    editor: stroke handling, raster undo history, resize, mask composition
    and submission) and of [src/services/geminiService.ts] (the wrapper
    around the generation service).

    React refs and state cells become fields of one [State] record that the
    handlers transform; an asynchronous handler is one transformation, from
    the click to the settled promise. The 2D canvas API is modelled on flat
    RGBA byte lists, the way [ImageData.data] presents a surface to the
    code. What the browser and the SDK decide on their own (resampling
    inside [drawImage], the rasterisation of a stroked path, PNG encoding,
    [JSON.stringify] of the service's rating objects) is collected in the
    [Platform] interface and left abstract; the arithmetic of JavaScript
    numbers sits behind the [Number] interface, whose instance for the code
    is the kernel's binary64. A second instance, on exact rationals, is the
    largest rectangle as the specification words it, kept to compare the
    code against. Text is held as its UTF-8 bytes.

    Conventions of the canvas model:
    - a surface is read and written in whole, at offset (0,0), as the code
      does everywhere;
    - the backing store is premultiplied, so a fully transparent pixel
      reads back as 0,0,0,0 whatever colour was written with it;
    - compositing is Porter-Duff on 8-bit channels with integer division;
    - [getContext('2d')] succeeds on the editor's own canvases;
    - [getImageData] raises on a surface without area: it returns [None]
      here, and the handler ends where the exception leaves it, with the
      writes made so far when the call stands outside a [try], in the
      [catch] when it stands inside;
    - an [ImageData] has an area, so that [drawImage] from the canvas of a
      snapshot does not raise;
    - between two events React has re-rendered, so a handler sees the state
      the previous one left. *)

From Stdlib Require Import ZArith List String Ascii Bool Lia.
From Stdlib Require Import QArith Qround Lqa.
From Stdlib Require PrimFloat FloatOps SpecFloat Uint63.
Import ListNotations.

Local Open Scope Z_scope.

(** ** Raster data *)

(** [ImageData]: dimensions and the RGBA bytes, row-major. *)
Record ImageData : Type := mkImageData {
  width : nat;
  height : nat;
  data : list Z
}.

Inductive CompositeOp : Type := SourceOver | DestinationOut.

Inductive Tool : Type := Brush | Eraser.

(** A CSS colour as the four channels it denotes, alpha scaled to a byte. *)
Definition Color : Type := (Z * Z * Z * Z)%type.

(** ['black'] *)
Definition black : Color := (0, 0, 0, 255).

(** ['rgba(255, 0, 255, 0.7)'], the alpha rounded to a byte. *)
Definition brushInk : Color := (255, 0, 255, 179).

(** ['rgba(0,0,0,1)'] *)
Definition eraserInk : Color := (0, 0, 0, 255).

(** The colour the mask loop writes, on an opaque pixel. *)
Definition white : Color := (255, 255, 255, 255).

(** The bytes of [n] pixels of one colour. *)
Fixpoint solid (col : Color) (n : nat) : list Z :=
  match n with
  | O => []
  | S k => let '(r, g, b, a) := col in r :: g :: b :: a :: solid col k
  end.

(** What the browser hands back for a stored surface: transparent pixels
    carry no colour. *)
Fixpoint readback (px : list Z) : list Z :=
  match px with
  | r :: g :: b :: a :: rest =>
      if a =? 0 then 0 :: 0 :: 0 :: 0 :: readback rest
      else r :: g :: b :: a :: readback rest
  | other => other
  end.

(** The alpha bytes of a surface, one per pixel. *)
Fixpoint alphas (px : list Z) : list Z :=
  match px with
  | _ :: _ :: _ :: a :: rest => a :: alphas rest
  | _ => []
  end.

(** [new Uint32Array(data.buffer)]: one little-endian word per pixel. *)
Fixpoint uint32Array (px : list Z) : list Z :=
  match px with
  | r :: g :: b :: a :: rest =>
      (r + 256 * g + 65536 * b + 16777216 * a) :: uint32Array rest
  | _ => []
  end.

(** The pixel of a [w]-wide raster at column [x], row [y]. *)
Definition pixelAt (w : nat) (d : list Z) (x y : nat) : list Z :=
  firstn 4 (skipn (4 * (y * w + x)) d).

(** Porter-Duff on one non-premultiplied 8-bit pixel. *)
Definition blendPixel (op : CompositeOp) (s d : Color) : list Z :=
  let '(sr, sg, sb, sa) := s in
  let '(dr, dg, db, da) := d in
  match op with
  | SourceOver =>
      let ao := sa + da * (255 - sa) / 255 in
      let mix := fun cs cd =>
        if ao =? 0 then 0
        else (cs * sa * 255 + cd * da * (255 - sa)) / (ao * 255) in
      [mix sr dr; mix sg dg; mix sb db; ao]
  | DestinationOut =>
      [dr; dg; db; da * (255 - sa) / 255]
  end.

(** Compositing a source raster onto a destination of the same size; a
    source that runs short counts as transparent. *)
Fixpoint blend (op : CompositeOp) (src dst : list Z) : list Z :=
  match dst with
  | dr :: dg :: db :: da :: dst' =>
      match src with
      | sr :: sg :: sb :: sa :: src' =>
          blendPixel op (sr, sg, sb, sa) (dr, dg, db, da) ++ blend op src' dst'
      | _ =>
          blendPixel op (0, 0, 0, 0) (dr, dg, db, da) ++ blend op [] dst'
      end
  | other => other
  end.

(** The loop of [handleGenerate] over the composited mask:
    [for (i = 0; i < data.length; i += 4) if (data[i + 3] > 0) ...]. *)
Fixpoint whiten (px : list Z) : list Z :=
  match px with
  | r :: g :: b :: a :: rest =>
      if a >? 0 then 255 :: 255 :: 255 :: a :: whiten rest
      else r :: g :: b :: a :: whiten rest
  | other => other
  end.

(** ** JavaScript arrays and strings *)

(** [arr.splice(start)]: what stays in the array. *)
Definition splice {A : Type} (arr : list A) (start : Z) : list A :=
  let len := Z.of_nat (List.length arr) in
  let from := if start <? 0 then Z.max (len + start) 0 else Z.min start len in
  firstn (Z.to_nat from) arr.

(** [arr[i]], [undefined] out of range. *)
Definition at_index {A : Type} (arr : list A) (i : Z) : option A :=
  if i <? 0 then None else nth_error arr (Z.to_nat i).

(** [!s], the falsiness of a string. *)
Definition isEmpty (s : string) : bool :=
  match s with EmptyString => true | _ => false end.

(** The text whose UTF-8 bytes are the given ones. *)
Definition utf8 (bytes : list Z) : string :=
  string_of_list_ascii (map (fun b => ascii_of_nat (Z.to_nat b)) bytes).

(** The characters [String.prototype.trim] strips, the WhiteSpace and
    LineTerminator code points of ECMAScript: U+0009 to U+000D, U+0020,
    U+00A0, U+1680, U+2000 to U+200A, U+2028, U+2029, U+202F, U+205F,
    U+3000 and U+FEFF. The first six take one byte, U+00A0 two, the others
    three. *)
Definition isWhiteSpace (c : ascii) : bool :=
  let n := nat_of_ascii c in
  ((9 <=? n) && (n <=? 13))%nat || (n =? 32)%nat.

Definition isWhiteSpace2 (c d : ascii) : bool :=
  ((nat_of_ascii c =? 194) && (nat_of_ascii d =? 160))%nat.

Definition isWhiteSpace3 (c d e : ascii) : bool :=
  let '(x, y, z) := (nat_of_ascii c, nat_of_ascii d, nat_of_ascii e) in
  ((x =? 225) && (y =? 154) && (z =? 128)
   || (x =? 226) && (y =? 128)
      && (((128 <=? z) && (z <=? 138)) || (z =? 168) || (z =? 169) || (z =? 175))
   || (x =? 226) && (y =? 129) && (z =? 159)
   || (x =? 227) && (y =? 128) && (z =? 128)
   || (x =? 239) && (y =? 187) && (z =? 191))%nat.

(** [s.trimStart()] *)
Fixpoint trimStart (s : string) : string :=
  match s with
  | String c rest =>
      if isWhiteSpace c then trimStart rest
      else
        match rest with
        | String d rest2 =>
            if isWhiteSpace2 c d then trimStart rest2
            else
              match rest2 with
              | String e rest3 =>
                  if isWhiteSpace3 c d e then trimStart rest3 else s
              | EmptyString => s
              end
        | EmptyString => s
        end
  | EmptyString => EmptyString
  end.

(** [s.trimEnd()]: a tail made of white space only is cut off. *)
Fixpoint trimEnd (s : string) : string :=
  match s with
  | String c rest =>
      if isEmpty (trimStart s) then EmptyString else String c (trimEnd rest)
  | EmptyString => EmptyString
  end.

(** [s.trim()] *)
Definition trim (s : string) : string := trimEnd (trimStart s).

(** [s.indexOf(',')] *)
Fixpoint indexOfComma (s : string) : Z :=
  match s with
  | EmptyString => -1
  | String c rest =>
      if Ascii.eqb c ","%char then 0
      else let i := indexOfComma rest in if i <? 0 then -1 else i + 1
  end.

Fixpoint dropChars (n : nat) (s : string) : string :=
  match n, s with
  | S k, String _ rest => dropChars k rest
  | _, _ => s
  end.

(** [s.substring(start)] *)
Definition substringFrom (s : string) (start : Z) : string :=
  dropChars (Z.to_nat start) s.

(** [s] occurs inside [t]. *)
Definition includes (t s : string) : Prop :=
  exists pre post : string, t = (pre ++ s ++ post)%string.

(** ** What the browser and the SDK decide *)

(** The numbers of the component. JavaScript computes in binary64; the
    handlers are written once over this interface and run at the binary64
    instance below. *)
Class Number (num : Type) : Type := {
  ofNat : nat -> num;
  ndiv : num -> num -> num;
  nmul : num -> num -> num;
  ngt : num -> num -> bool;
  (** the conversion a canvas applies when a number is assigned to its
      [width] or [height] *)
  toLength : num -> nat
}.

Class Platform (num : Type) : Type := {
  (** a pointer position relative to the drawing canvas *)
  Point : Type;
  (** one entry of a candidate's [safetyRatings] *)
  SafetyRating : Type;
  (** [drawImage(src, 0, 0, dw, dh)]: the pixels obtained from the source
      raster for a destination rectangle of size [dw] by [dh], laid over a
      surface of the given width and height *)
  drawImageSample : ImageData -> num -> num -> nat -> nat -> list Z;
  (** [ctx.stroke()]: compositing mode, stroke style, line width and
      current path, applied to a surface of the given width, height and
      content (round caps and joins) *)
  strokePath :
    CompositeOp -> Color -> Z -> list Point -> nat -> nat -> list Z -> list Z;
  (** [canvas.toDataURL('image/png')] *)
  toDataURL : ImageData -> string;
  (** [JSON.stringify] on an array of ratings *)
  JSON_stringify : list SafetyRating -> string;
  (** the [message] of the IndexSizeError [getImageData] raises; browsers
      word it differently, none leaves it empty *)
  indexSizeMessage : string;
  indexSizeMessage_shown : isEmpty indexSizeMessage = false
}.

Section Editor.

Context {num : Type} {NM : Number num} {PF : Platform num}.

(** ** Canvas *)

(** A canvas with its 2D context: size, backing store, and the context state
    the editor touches. *)
Record Canvas : Type := mkCanvas {
  canvasWidth : nat;
  canvasHeight : nat;
  bitmap : list Z;
  globalCompositeOperation : CompositeOp;
  path : list Point
}.

(** [document.createElement('canvas')] followed by the assignment of
    [width] and [height], or that assignment on an existing canvas: the
    surface is cleared and the context state reset. *)
Definition createCanvas (w h : nat) : Canvas :=
  mkCanvas w h (solid (0, 0, 0, 0) (w * h)) SourceOver [].

Definition withBitmap (c : Canvas) (px : list Z) : Canvas :=
  mkCanvas (canvasWidth c) (canvasHeight c) px
           (globalCompositeOperation c) (path c).

(** The pixels of a surface as an image: what a readback presents, and
    what [drawImage] takes from a canvas given as its source. *)
Definition rasterOf (c : Canvas) : ImageData :=
  mkImageData (canvasWidth c) (canvasHeight c) (readback (bitmap c)).

Definition hasArea (c : Canvas) : bool :=
  negb ((canvasWidth c =? 0) || (canvasHeight c =? 0))%nat.

(** [ctx.getImageData(0, 0, canvas.width, canvas.height)]: [None] stands
    for the IndexSizeError raised when the width or the height is 0. *)
Definition getImageData (c : Canvas) : option ImageData :=
  if hasArea c then Some (rasterOf c) else None.

(** [ctx.clearRect(0, 0, canvas.width, canvas.height)] *)
Definition clearRect (c : Canvas) : Canvas :=
  withBitmap c (solid (0, 0, 0, 0) (canvasWidth c * canvasHeight c)).

(** [ctx.putImageData(imageData, 0, 0)]: the pixels of the overlap are
    replaced, the others stay. *)
Definition putImageData (img : ImageData) (c : Canvas) : Canvas :=
  withBitmap c
    (flat_map (fun y =>
       flat_map (fun x =>
         if ((x <? width img) && (y <? height img))%nat
         then pixelAt (width img) (data img) x y
         else pixelAt (canvasWidth c) (bitmap c) x y)
         (seq 0 (canvasWidth c)))
       (seq 0 (canvasHeight c))).

(** [ctx.fillStyle = col; ctx.fillRect(0, 0, canvas.width, canvas.height)] *)
Definition fillRect (col : Color) (c : Canvas) : Canvas :=
  withBitmap c
    (blend (globalCompositeOperation c)
           (solid col (canvasWidth c * canvasHeight c)) (bitmap c)).

(** [ctx.drawImage(src, 0, 0, dw, dh)] *)
Definition drawImage (src : ImageData) (dw dh : num) (c : Canvas) : Canvas :=
  withBitmap c
    (blend (globalCompositeOperation c)
           (drawImageSample src dw dh (canvasWidth c) (canvasHeight c))
           (bitmap c)).

(** ** Component state *)

(** [image.current]: the element's natural size, its [complete] flag and
    the decoded picture. *)
Record Image : Type := mkImage {
  naturalWidth : nat;
  naturalHeight : nat;
  complete : bool;
  decoded : ImageData
}.

Record State : Type := mkState {
  imageCanvasRef : option Canvas;
  drawingCanvasRef : option Canvas;
  isDrawing : bool;
  brushSize : Z;
  prompt : string;
  isLoading : bool;
  error : option string;
  tool : Tool;
  isMaskVisible : bool;
  history : list ImageData;
  historyIndex : Z;
  image : option Image
}.

(** The state of a freshly mounted editor whose image has not loaded. *)
Definition mounted (img : Image) : State :=
  mkState (Some (createCanvas 300 150)) (Some (createCanvas 300 150))
          false 40 EmptyString false None Brush true [] (-1) (Some img).

Definition setCanvases (s : State) (ic dc : option Canvas) : State :=
  mkState ic dc (isDrawing s) (brushSize s) (prompt s) (isLoading s)
          (error s) (tool s) (isMaskVisible s) (history s) (historyIndex s)
          (image s).

Definition setDrawingCanvas (s : State) (dc : Canvas) : State :=
  setCanvases s (imageCanvasRef s) (Some dc).

Definition setIsDrawing (s : State) (b : bool) : State :=
  mkState (imageCanvasRef s) (drawingCanvasRef s) b (brushSize s) (prompt s)
          (isLoading s) (error s) (tool s) (isMaskVisible s) (history s)
          (historyIndex s) (image s).

Definition setBrushSize (s : State) (n : Z) : State :=
  mkState (imageCanvasRef s) (drawingCanvasRef s) (isDrawing s) n (prompt s)
          (isLoading s) (error s) (tool s) (isMaskVisible s) (history s)
          (historyIndex s) (image s).

Definition setPrompt (s : State) (p : string) : State :=
  mkState (imageCanvasRef s) (drawingCanvasRef s) (isDrawing s) (brushSize s)
          p (isLoading s) (error s) (tool s) (isMaskVisible s) (history s)
          (historyIndex s) (image s).

Definition setIsLoading (s : State) (b : bool) : State :=
  mkState (imageCanvasRef s) (drawingCanvasRef s) (isDrawing s) (brushSize s)
          (prompt s) b (error s) (tool s) (isMaskVisible s) (history s)
          (historyIndex s) (image s).

Definition setError (s : State) (e : option string) : State :=
  mkState (imageCanvasRef s) (drawingCanvasRef s) (isDrawing s) (brushSize s)
          (prompt s) (isLoading s) e (tool s) (isMaskVisible s) (history s)
          (historyIndex s) (image s).

Definition setTool (s : State) (t : Tool) : State :=
  mkState (imageCanvasRef s) (drawingCanvasRef s) (isDrawing s) (brushSize s)
          (prompt s) (isLoading s) (error s) t (isMaskVisible s) (history s)
          (historyIndex s) (image s).

Definition setIsMaskVisible (s : State) (b : bool) : State :=
  mkState (imageCanvasRef s) (drawingCanvasRef s) (isDrawing s) (brushSize s)
          (prompt s) (isLoading s) (error s) (tool s) b (history s)
          (historyIndex s) (image s).

Definition setHistory (s : State) (h : list ImageData) (i : Z) : State :=
  mkState (imageCanvasRef s) (drawingCanvasRef s) (isDrawing s) (brushSize s)
          (prompt s) (isLoading s) (error s) (tool s) (isMaskVisible s) h i
          (image s).

(** [history.current[historyIndex.current]] *)
Definition currentSnapshot (s : State) : option ImageData :=
  at_index (history s) (historyIndex s).

(** ** Raster history *)

(** When [getImageData] raises, the handler that called [saveToHistory]
    ends there: what it wrote before stays, the history is not touched. *)
Definition saveToHistory (s : State) : State :=
  match drawingCanvasRef s with
  | None => s
  | Some canvas =>
      match getImageData canvas with
      | None => s
      | Some imageData =>
          let kept := splice (history s) (historyIndex s + 1) in
          let pushed := kept ++ [imageData] in
          setHistory s pushed (Z.of_nat (List.length pushed) - 1)
      end
  end.

Definition handleUndo (s : State) : State :=
  if historyIndex s >? 0 then
    let s1 := setHistory s (history s) (historyIndex s - 1) in
    match drawingCanvasRef s1, currentSnapshot s1 with
    | Some canvas, Some imageData =>
        setDrawingCanvas s1 (putImageData imageData (clearRect canvas))
    | _, _ => s1
    end
  else s.

Definition clearMask (s : State) : State :=
  let s1 := setHistory s (history s) 0 in
  match drawingCanvasRef s1, currentSnapshot s1 with
  | Some canvas, Some imageData =>
      saveToHistory
        (setDrawingCanvas s1 (putImageData imageData (clearRect canvas)))
  | _, _ => s1
  end.

(** ** Strokes *)

Definition startDrawing (p : Point) (s : State) : State :=
  match drawingCanvasRef s with
  | None => s
  | Some canvas =>
      let s1 := setIsDrawing s true in
      let op := match tool s with
                | Brush => SourceOver
                | Eraser => DestinationOut
                end in
      (* beginPath(); moveTo(x, y) *)
      setDrawingCanvas s1
        (mkCanvas (canvasWidth canvas) (canvasHeight canvas) (bitmap canvas)
                  op [p])
  end.

Definition draw (p : Point) (s : State) : State :=
  if negb (isDrawing s) then s
  else
    match drawingCanvasRef s with
    | None => s
    | Some canvas =>
        let pts := (path canvas ++ [p])%list in
        let strokeStyle := match tool s with
                           | Brush => brushInk
                           | Eraser => eraserInk
                           end in
        let op := globalCompositeOperation canvas in
        setDrawingCanvas s
          (mkCanvas (canvasWidth canvas) (canvasHeight canvas)
                    (strokePath op strokeStyle (brushSize s) pts
                       (canvasWidth canvas) (canvasHeight canvas)
                       (bitmap canvas))
                    op pts)
    end.

Definition stopDrawing (s : State) : State :=
  match drawingCanvasRef s with
  | None => s
  | Some canvas =>
      if negb (isDrawing s) then s
      else
        (* closePath() adds no ink *)
        saveToHistory (setIsDrawing s false)
  end.

(** ** Resize *)

(** The rectangle [resizeCanvases] computes: [(renderWidth, renderHeight)]. *)
Definition renderSize (naturalW naturalH : nat) (containerWidth containerHeight : num)
  : num * num :=
  let imageAspectRatio := ndiv (ofNat naturalW) (ofNat naturalH) in
  let containerAspectRatio := ndiv containerWidth containerHeight in
  if ngt imageAspectRatio containerAspectRatio
  then (containerWidth, ndiv containerWidth imageAspectRatio)
  else (nmul containerHeight imageAspectRatio, containerHeight).

(** [container] is [containerRef.current] with its bounding rectangle. *)
Definition resizeCanvases (container : option (num * num)) (s : State) : State :=
  match image s, container, imageCanvasRef s, drawingCanvasRef s with
  | Some img, Some (containerWidth, containerHeight), Some _, Some _ =>
      if (naturalWidth img =? 0)%nat then s
      else
        let '(renderWidth, renderHeight) :=
          renderSize (naturalWidth img) (naturalHeight img)
                     containerWidth containerHeight in
        let w := toLength renderWidth in
        let h := toLength renderHeight in
        let imageCanvas :=
          drawImage (decoded img) renderWidth renderHeight (createCanvas w h) in
        let drawingCanvas :=
          match currentSnapshot s with
          | Some lastMask =>
              let tempCanvas :=
                putImageData lastMask
                  (createCanvas (width lastMask) (height lastMask)) in
              drawImage (rasterOf tempCanvas) renderWidth renderHeight
                        (clearRect (createCanvas w h))
          | None => createCanvas w h
          end in
        setCanvases s (Some imageCanvas) (Some drawingCanvas)
  | _, _, _, _ => s
  end.

(** The [ResizeObserver] callback. *)
Definition onResize (container : option (num * num)) (s : State) : State :=
  match image s with
  | Some img =>
      if complete img && negb (naturalWidth img =? 0)%nat
      then resizeCanvases container s
      else s
  | None => s
  end.

(** [image.current.onload] *)
Definition onLoad (container : option (num * num)) (s : State) : State :=
  saveToHistory (resizeCanvases container s).


(** ** The generation service ([geminiService.ts]) *)

(** A value raised by [throw] or delivered by a rejected promise: an
    [Error] with its message, or anything else with its [String(...)]. *)
Inductive Thrown : Type :=
| ErrorObject (message : string)
| OtherValue (asString : string).

Inductive RequestPart : Type :=
| TextPart (text : string)
| InlineDataPart (partData mimeType : string).

Record GenerateRequest : Type := mkRequest {
  model : string;
  parts : list RequestPart;
  responseModalities : list string
}.

(** [GenerateContentResponse] as the SDK declares it, cut to the image
    and the safety information it can carry; every field may be missing. *)
Record Blob : Type := mkBlob { blobData : string }.

Record Part : Type := mkPart { inlineData : option Blob }.

Record Content : Type := mkContent { contentParts : option (list Part) }.

Record Candidate : Type := mkCandidate {
  content : option Content;
  safetyRatings : option (list SafetyRating)
}.

(** [promptFeedback]: set by the service when it judged the prompt itself,
    with the reason of a block and the ratings behind it. *)
Record PromptFeedback : Type := mkPromptFeedback {
  blockReason : option string;
  feedbackRatings : option (list SafetyRating)
}.

Record GenerateContentResponse : Type := mkResponse {
  candidates : option (list Candidate);
  promptFeedback : option PromptFeedback
}.

(** What lies outside the component during one submission:
    [process.env.API_KEY], the outcome of reading the uploaded file, and
    the answer of [ai.models.generateContent]. *)
Record Environment : Type := mkEnvironment {
  API_KEY : option string;
  (** [reader.result] at [onload]; [None] when [onerror] fired, which
      rejects with a ProgressEvent, never an [Error] *)
  readAsDataURL : option string;
  generateContent : GenerateRequest -> Thrown + GenerateContentResponse
}.

Definition quote : string := String "034"%char EmptyString.

Definition fileDataToBase64 (fileData : string) : string :=
  substringFrom fileData (indexOfComma fileData + 1).

Definition systemPrompt (userPrompt : string) : string :=
  ("You are an expert image editor. The user will provide an image, a mask, and a text prompt.
You must edit the area of the image defined by the white parts of the mask according to the text prompt. 
The black parts of the mask must remain untouched. Only output the edited image.
User prompt: " ++ quote ++ userPrompt ++ quote)%string.

Definition noImageMessage : string :=
  "No image was generated. The response may have been blocked due to safety policies."%string.

(** [response.candidates?.[0]] *)
Definition firstCandidate (response : GenerateContentResponse) : option Candidate :=
  match candidates response with
  | Some (c :: _) => Some c
  | _ => None
  end.

(** [response.candidates?.[0]?.content?.parts?.[0]] *)
Definition firstPart (response : GenerateContentResponse) : option Part :=
  match firstCandidate response with
  | Some c =>
      match content c with
      | Some ct =>
          match contentParts ct with
          | Some (p :: _) => Some p
          | _ => None
          end
      | None => None
      end
  | None => None
  end.

(** [response.candidates?.[0]?.safetyRatings] *)
Definition safetyFeedback (response : GenerateContentResponse)
  : option (list SafetyRating) :=
  match firstCandidate response with
  | Some c => safetyRatings c
  | None => None
  end.

(** The image the wrapper finds in a response, if any. *)
Definition generatedImage (response : GenerateContentResponse) : option Blob :=
  match firstPart response with
  | Some p => inlineData p
  | None => None
  end.

(** [error instanceof Error ? error.message : String(error)] *)
Definition describe (e : Thrown) : string :=
  match e with
  | ErrorObject m => m
  | OtherValue v => v
  end.

(** The requests sent to the service, and the promise's outcome. *)
Definition Completion (A : Type) : Type := (list GenerateRequest * (Thrown + A))%type.

(** The argument of [ai.models.generateContent]. *)
Definition generationRequest
    (originalImageBase64 maskImageBase64 userPrompt : string) : GenerateRequest :=
  mkRequest "gemini-2.5-flash-image"%string
    [ TextPart (systemPrompt userPrompt);
      InlineDataPart (fileDataToBase64 originalImageBase64) "image/png"%string;
      InlineDataPart (fileDataToBase64 maskImageBase64) "image/png"%string ]
    [ "IMAGE"%string ].

(** [!process.env.API_KEY] *)
Definition keyMissing (env : Environment) : bool :=
  match API_KEY env with
  | None => true
  | Some k => isEmpty k
  end.

Definition editImageWithMask (env : Environment)
    (originalImageBase64 maskImageBase64 userPrompt : string)
  : Completion string :=
  if keyMissing env then
    ([], inl (ErrorObject
      "API_KEY environment variable is not set. Please set it in your environment."%string))
  else
    let request :=
      generationRequest originalImageBase64 maskImageBase64 userPrompt in
    let wrap := fun e : Thrown =>
      ErrorObject ("Failed to edit image: " ++ describe e)%string in
    match generateContent env request with
    | inl e => ([request], inl (wrap e))
    | inr response =>
        match generatedImage response with
        | Some blob =>
            ([request], inr ("data:image/png;base64," ++ blobData blob)%string)
        | None =>
            let errorMessage :=
              match safetyFeedback response with
              | Some ratings =>
                  (noImageMessage ++ " Safety feedback: " ++ JSON_stringify ratings)%string
              | None => noImageMessage
              end in
            ([request], inl (wrap (ErrorObject errorMessage)))
        end
    end.

(** ** Submission *)

(** The mask canvas after [fillRect] and [drawImage]. *)
Definition maskSurface (img : Image) (s : State) : Canvas :=
  let maskCanvas := createCanvas (naturalWidth img) (naturalHeight img) in
  let maskCanvas := fillRect black maskCanvas in
  match currentSnapshot s with
  | Some currentMaskState =>
      let tempHistoryCanvas :=
        putImageData currentMaskState
          (createCanvas (width currentMaskState) (height currentMaskState)) in
      drawImage (rasterOf tempHistoryCanvas)
                (ofNat (canvasWidth maskCanvas))
                (ofNat (canvasHeight maskCanvas)) maskCanvas
  | None => maskCanvas
  end.

(** The loop over [imageData.data] and the [putImageData] that follows. *)
Definition binarise (imageData : ImageData) (maskCanvas : Canvas) : Canvas :=
  putImageData
    (mkImageData (width imageData) (height imageData) (whiten (data imageData)))
    maskCanvas.

(** The mask canvas [handleGenerate] encodes, when its [getImageData] has
    not raised. *)
Definition composeMask (img : Image) (s : State) : Canvas :=
  binarise (rasterOf (maskSurface img s)) (maskSurface img s).

(** What one run of [handleGenerate] leaves behind: the component state,
    the calls to [editImageWithMask] (with their arguments), the network
    requests issued, and the argument of [onEditComplete] if it was
    called. *)
Record Submission : Type := mkSubmission {
  after : State;
  collaboratorCalls : list (string * string * string);
  requests : list GenerateRequest;
  delivered : option string
}.

Definition promptError : string := "Please enter a description for the edit."%string.

Definition maskError : string :=
  "Please draw a mask on the image to indicate the area to be edited."%string.

(** The [catch] and [finally] clauses. *)
Definition failWith (s : State) (e : Thrown) : State :=
  let errorMessage := match e with
                      | ErrorObject m => m
                      | OtherValue _ => "An unknown error occurred."%string
                      end in
  setIsLoading (setError s (Some errorMessage)) false.

(** The first [getImageData] stands before the [try]: when it raises, the
    handler ends with nothing written. The second stands inside: its
    DOMException is an [Error] and goes to the [catch]. *)
Definition handleGenerate (env : Environment) (s : State) : Submission :=
  if isEmpty (trim (prompt s)) then
    mkSubmission (setError s (Some promptError)) [] [] None
  else
    match drawingCanvasRef s with
    | None => mkSubmission s [] [] None
    | Some drawingCanvas =>
        match getImageData drawingCanvas with
        | None => mkSubmission s [] [] None
        | Some drawn =>
            let pixelBuffer := uint32Array (data drawn) in
            if negb (existsb (fun color => negb (color =? 0)) pixelBuffer) then
              mkSubmission (setError s (Some maskError)) [] [] None
            else
              let s1 := setIsLoading (setError s None) true in
              match image s1 with
              | None =>
                  mkSubmission
                    (failWith s1 (ErrorObject "Original image not found"%string))
                    [] [] None
              | Some img =>
                  match getImageData (maskSurface img s1) with
                  | None =>
                      mkSubmission (failWith s1 (ErrorObject indexSizeMessage))
                                   [] [] None
                  | Some imageData =>
                      let maskCanvas := binarise imageData (maskSurface img s1) in
                      let maskBase64 := toDataURL (rasterOf maskCanvas) in
                      match readAsDataURL env with
                      | None =>
                          mkSubmission
                            (failWith s1 (OtherValue "[object ProgressEvent]"%string))
                            [] [] None
                      | Some originalImageBase64 =>
                          let call :=
                            (originalImageBase64, maskBase64, prompt s1) in
                          match editImageWithMask env originalImageBase64
                                                  maskBase64 (prompt s1) with
                          | (sent, inl e) =>
                              mkSubmission (failWith s1 e) [call] sent None
                          | (sent, inr result) =>
                              mkSubmission (setIsLoading s1 false) [call] sent
                                           (Some result)
                          end
                      end
                  end
              end
        end
    end.

(** ** Gestures *)

(** One continuous gesture: the tool and diameter chosen for it, the
    pointer-down position and the positions of the moves that follow. *)
Record Stroke : Type := mkStroke {
  strokeTool : Tool;
  strokeWidth : Z;
  strokeStart : Point;
  strokeMoves : list Point
}.

(** Pointer down, the moves, pointer up. *)
Definition completeStroke (k : Stroke) (s : State) : State :=
  let s0 := setBrushSize (setTool s (strokeTool k)) (strokeWidth k) in
  stopDrawing
    (fold_left (fun st p => draw p st) (strokeMoves k)
               (startDrawing (strokeStart k) s0)).

Definition paint (ks : list Stroke) (s : State) : State :=
  fold_left (fun st k => completeStroke k st) ks s.

Fixpoint undoTimes (n : nat) (s : State) : State :=
  match n with
  | O => s
  | S k => undoTimes k (handleUndo s)
  end.

(** ** The editor as a machine *)

(** What can happen to a mounted editor: the DOM events its JSX binds, the
    two callbacks of its effect, and a click on the generate button
    together with what the world answers to it. *)
Inductive Event : Type :=
| PointerDown (p : Point)
| PointerMove (p : Point)
| PointerUp
| UndoClicked
| ClearClicked
| ToolPicked (t : Tool)
| SizePicked (n : Z)
| PromptTyped (text : string)
| MaskToggled
| ContainerResized (container : option (num * num))
| ImageLoaded (container : option (num * num))
| GenerateClicked (env : Environment).

Definition handle (e : Event) (s : State) : State :=
  match e with
  | PointerDown p => startDrawing p s
  | PointerMove p => draw p s
  | PointerUp => stopDrawing s
  | UndoClicked => handleUndo s
  | ClearClicked => clearMask s
  | ToolPicked t => setTool s t
  | SizePicked n => setBrushSize s n
  | PromptTyped text => setPrompt s text
  | MaskToggled => setIsMaskVisible s (negb (isMaskVisible s))
  | ContainerResized container => onResize container s
  | ImageLoaded container => onLoad container s
  | GenerateClicked env => after (handleGenerate env s)
  end.

Definition run (events : list Event) (s : State) : State :=
  fold_left (fun st e => handle e st) events s.

(** The cursor names an entry of the history. *)
Definition cursorValid (s : State) : Prop :=
  0 <= historyIndex s <= Z.of_nat (List.length (history s)) - 1.

(** What holds of the cursor from the mount on: before the first snapshot
    it is -1 or 0, afterwards it names an entry. *)
Definition cursorSound (s : State) : Prop :=
  (history s = [] /\ -1 <= historyIndex s <= 0) \/ cursorValid s.


(** No pixel of the surface carries ink. *)
Definition transparent (c : Canvas) : Prop :=
  Forall (fun a => a = 0) (alphas (bitmap c)).

(** [handleGenerate] gets past its two checks. *)
Definition passesValidation (s : State) : Prop :=
  isEmpty (trim (prompt s)) = false /\
  exists canvas drawn,
    drawingCanvasRef s = Some canvas /\
    getImageData canvas = Some drawn /\
    existsb (fun color => negb (color =? 0)) (uint32Array (data drawn)) = true.

(** The events that can come between a pointer-down and its pointer-up
    without touching the surface's size or the history. *)
Definition midStroke (e : Event) : bool :=
  match e with
  | PointerMove _ | ToolPicked _ | SizePicked _ | PromptTyped _ | MaskToggled =>
      true
  | _ => false
  end.

(** The surface holds four bytes for each of its pixels. *)
Definition wellSized (c : Canvas) : Prop :=
  List.length (bitmap c) = (4 * (canvasWidth c * canvasHeight c))%nat.

(** Every list of safety ratings a response carries: the one of the prompt
    feedback and the one of each candidate. *)
Definition availableRatings (response : GenerateContentResponse)
  : list (list SafetyRating) :=
  (match promptFeedback response with
   | Some feedback =>
       match feedbackRatings feedback with
       | Some r => [r]
       | None => []
       end
   | None => []
   end)
  ++ flat_map (fun c => match safetyRatings c with
                        | Some r => [r]
                        | None => []
                        end)
       (match candidates response with
        | Some cs => cs
        | None => []
        end).

End Editor.

(** ** The page ([App], in the same source file) *)

Section Page.

(** The uploaded file: an opaque handle. *)
Context {File : Type}.

Record AppState : Type := mkAppState {
  originalImage : option File;
  editedImage : option string;
  showEditor : bool
}.

(** [useState] initial values. *)
Definition appStart : AppState := mkAppState None None false.

Definition handleImageUpload (file : File) (a : AppState) : AppState :=
  mkAppState (Some file) None true.

Definition handleReset (a : AppState) : AppState :=
  mkAppState None None false.

Definition handleBackToEditor (a : AppState) : AppState :=
  mkAppState (originalImage a) None (showEditor a).

(** [onEditComplete={setEditedImage}] *)
Definition setEditedImage (result : string) (a : AppState) : AppState :=
  mkAppState (originalImage a) (Some result) (showEditor a).

(** The truthiness of [editedImage]: [null] and the empty string are
    falsy. *)
Definition hasEdited (a : AppState) : bool :=
  match editedImage a with
  | Some r => negb (isEmpty r)
  | None => false
  end.

(** The truthiness of [originalImage]. *)
Definition hasOriginal (a : AppState) : bool :=
  match originalImage a with
  | Some _ => true
  | None => false
  end.

(** The three conditional blocks of [<main>], and the header button. *)
Definition rendersUploader (a : AppState) : bool :=
  negb (showEditor a) && negb (hasEdited a).

Definition rendersEditor (a : AppState) : bool :=
  showEditor a && hasOriginal a && negb (hasEdited a).

Definition rendersResult (a : AppState) : bool := hasEdited a.

Definition rendersNewImageButton (a : AppState) : bool := hasOriginal a.

Inductive AppAction : Type :=
| ImageUploaded (file : File)
| ResetClicked
| BackToEditorClicked
| EditCompleted (result : string).

Definition act (x : AppAction) (a : AppState) : AppState :=
  match x with
  | ImageUploaded file => handleImageUpload file a
  | ResetClicked => handleReset a
  | BackToEditorClicked => handleBackToEditor a
  | EditCompleted result => setEditedImage result a
  end.

Definition session (actions : list AppAction) : AppState :=
  fold_left (fun a x => act x a) actions appStart.

End Page.

(** ** Vocabulary of the further properties *)

(** The white space characters of ECMAScript, in UTF-8. *)
Definition whiteSpaceCharacters : list string :=
  map utf8
    [ [9]; [10]; [11]; [12]; [13]; [32]; [194; 160]; [225; 154; 128];
      [226; 128; 128]; [226; 128; 129]; [226; 128; 130]; [226; 128; 131];
      [226; 128; 132]; [226; 128; 133]; [226; 128; 134]; [226; 128; 135];
      [226; 128; 136]; [226; 128; 137]; [226; 128; 138];
      [226; 128; 168]; [226; 128; 169]; [226; 128; 175]; [226; 129; 159];
      [227; 128; 128]; [239; 187; 191] ].

(** The text is made of white space characters only. *)
Inductive Blank : string -> Prop :=
| Blank_empty : Blank EmptyString
| Blank_more (w rest : string) :
    In w whiteSpaceCharacters -> Blank rest -> Blank (w ++ rest).

(** The character occurs in the text. *)
Fixpoint mentions (c : ascii) (s : string) : bool :=
  match s with
  | EmptyString => false
  | String d rest => Ascii.eqb c d || mentions c rest
  end.

(** The message of the [Error] thrown when [image.current] is missing. *)
Definition imageMissingMessage : string := "Original image not found"%string.

(** The prefix the wrapper's [catch] puts before what it caught. *)
Definition failurePrefix : string := "Failed to edit image: "%string.

(** The message of the missing-key [Error]. *)
Definition apiKeyMessage : string :=
  "API_KEY environment variable is not set. Please set it in your environment."%string.

(** The message shown for a rejection that is not an [Error]. *)
Definition unknownErrorMessage : string := "An unknown error occurred."%string.

(** The compositing mode [startDrawing] selects for a tool. *)
Definition compositeFor (t : Tool) : CompositeOp :=
  match t with
  | Brush => SourceOver
  | Eraser => DestinationOut
  end.


Section Failures.

Context {num : Type} {NM : Number num} {PF : Platform num}.

(** What a failed submission shows, with its cause. *)
Definition failureShown (env : Environment) (s : State) (msg : string) : Prop :=
  (image s = None /\ msg = imageMissingMessage)
  \/ (exists img, image s = Some img
                  /\ (naturalWidth img = 0%nat \/ naturalHeight img = 0%nat)
                  /\ msg = indexSizeMessage)
  \/ (readAsDataURL env = None /\ msg = unknownErrorMessage)
  \/ (keyMissing env = true /\ msg = apiKeyMessage)
  \/ (exists req e, generateContent env req = inl e
                    /\ msg = (failurePrefix ++ describe e)%string)
  \/ (exists req response detail,
        generateContent env req = inr response
        /\ generatedImage response = None
        /\ msg = (failurePrefix ++ noImageMessage ++ detail)%string).

End Failures.

(** ** Instances *)

(** Exact arithmetic on rationals: not what the code computes in, but the
    reading in which [renderSize] is the largest rectangle of the
    specification. A canvas keeps the integer part of a length. *)
#[export] Instance exactNumber : Number Q := {
  ofNat := fun n => inject_Z (Z.of_nat n);
  ndiv := Qdiv;
  nmul := Qmult;
  ngt := fun a b => negb (Qle_bool a b);
  toLength := fun q => Z.to_nat (Qfloor q)
}.

(** The numbers of JavaScript: IEEE 754 binary64, on the kernel's floats. *)
Definition truncate (f : PrimFloat.float) : Z :=
  match FloatOps.Prim2SF f with
  | SpecFloat.S754_finite sign m e =>
      let magnitude :=
        if 0 <=? e then Z.shiftl (Zpos m) e else Z.shiftr (Zpos m) (- e) in
      if sign then - magnitude else magnitude
  | _ => 0
  end.

(** Assignment to an [unsigned long] attribute: truncation, modulo 2^32
    (lengths up to 2^31 - 1, beyond which a canvas falls back to its
    default size). *)
#[export] Instance binary64 : Number PrimFloat.float := {
  ofNat := fun n => PrimFloat.of_uint63 (Uint63.of_Z (Z.of_nat n));
  ndiv := PrimFloat.div;
  nmul := PrimFloat.mul;
  ngt := fun a b => PrimFloat.ltb b a;
  toLength := fun f => Z.to_nat (truncate f mod 4294967296)
}.

(** A small platform to run the handlers on: pointer positions on the
    integer grid, nearest-neighbour resampling, a pen that inks exactly the
    pixels its path names, and transparent text encodings. *)
Definition nearestSample (src : ImageData) (w h : nat) : list Z :=
  flat_map (fun y =>
    flat_map (fun x =>
      pixelAt (width src) (data src)
              (x * width src / w)%nat (y * height src / h)%nat)
      (seq 0 w))
    (seq 0 h).

Definition penStroke (op : CompositeOp) (style : Color) (lineWidth : Z)
    (pts : list (Z * Z)) (w h : nat) (px : list Z) : list Z :=
  flat_map (fun y =>
    flat_map (fun x =>
      let old := pixelAt w px x y in
      if existsb (fun p => (fst p =? Z.of_nat x) && (snd p =? Z.of_nat y)) pts
      then match old with
           | [r; g; b; a] => blendPixel op style (r, g, b, a)
           | _ => old
           end
      else old)
      (seq 0 w))
    (seq 0 h).

Definition byteChar (b : Z) : ascii := ascii_of_nat (Z.to_nat (b mod 256)).

Definition rawDataURL (img : ImageData) : string :=
  ("data:image/png;base64," ++ string_of_list_ascii (map byteChar (data img)))%string.

Fixpoint joinWith (sep : string) (items : list string) : string :=
  match items with
  | [] => EmptyString
  | [x] => x
  | x :: rest => (x ++ sep ++ joinWith sep rest)%string
  end.

Definition quoted (s : string) : string :=
  (String "034"%char EmptyString ++ s ++ String "034"%char EmptyString)%string.

Definition ratingsJSON (ratings : list (string * string)) : string :=
  ("[" ++ joinWith ","
     (map (fun r => "{" ++ quoted "category" ++ ":" ++ quoted (fst r) ++ ","
                        ++ quoted "probability" ++ ":" ++ quoted (snd r) ++ "}")
          ratings) ++ "]")%string.

Definition gridOn (num : Type) : Platform num := {|
  Point := (Z * Z)%type;
  SafetyRating := (string * string)%type;
  drawImageSample := fun src _ _ w h => nearestSample src w h;
  strokePath := penStroke;
  toDataURL := rawDataURL;
  JSON_stringify := ratingsJSON;
  indexSizeMessage :=
    "Failed to execute 'getImageData' on 'CanvasRenderingContext2D': The source width is 0."%string;
  indexSizeMessage_shown := eq_refl
|}.

(** The sample session runs in the numbers of JavaScript. *)
#[export] Instance gridPlatform : Platform PrimFloat.float :=
  gridOn PrimFloat.float.

(** ** A session to run

    A two-pixel photograph in a container of its own size, one dab of the
    brush on the left pixel, and a service that declines to answer. *)

Definition photo : Image :=
  mkImage 2 1 true (mkImageData 2 1 [10; 20; 30; 255; 40; 50; 60; 255]).

Definition blankSnapshot : ImageData := mkImageData 2 1 [0; 0; 0; 0; 0; 0; 0; 0].

Definition inkedSnapshot : ImageData :=
  mkImageData 2 1 [255; 0; 255; 179; 0; 0; 0; 0].

Definition blankCanvas : Canvas := createCanvas 2 1.

Definition inkedCanvas : Canvas :=
  mkCanvas 2 1 [255; 0; 255; 179; 0; 0; 0; 0] SourceOver [(0, 0); (0, 0)].

(** The surface after the dab is undone. *)
Definition restoredCanvas : Canvas :=
  mkCanvas 2 1 [0; 0; 0; 0; 0; 0; 0; 0] SourceOver [(0, 0); (0, 0)].

(** The image has loaded: both surfaces sized, one blank snapshot. *)
Definition loaded : State := onLoad (Some (ofNat 2, ofNat 1)) (mounted photo).

Definition dab : Stroke := mkStroke Brush 40 (0, 0) [(0, 0)].

Definition inked : State := completeStroke dab loaded.

Definition request : string := "make the sky orange"%string.


(** Prompt typed, one dab painted. *)
Definition ready : State := setPrompt inked request.

Definition upload : string := "data:image/png;base64,AAAA"%string.

Definition ratings : list (string * string) :=
  [("HARM_CATEGORY_DANGEROUS_CONTENT", "HIGH")]%string.

Definition blocked : GenerateContentResponse :=
  mkResponse (Some [mkCandidate None (Some ratings)]) None.

Definition decliningService : Environment :=
  mkEnvironment (Some "key"%string) (Some upload) (fun _ => inr blocked).


(** Further worlds for the sample session: a service that answers with an
    image, no API key, no network, and an upload that cannot be read. *)
Definition answer : GenerateContentResponse :=
  mkResponse
    (Some [mkCandidate
             (Some (mkContent (Some [mkPart (Some (mkBlob "QUJD"%string))])))
             None])
    None.

Definition answeringService : Environment :=
  mkEnvironment (Some "key"%string) (Some upload) (fun _ => inr answer).


Definition offline : Thrown := ErrorObject "fetch failed"%string.

Definition offlineService : Environment :=
  mkEnvironment (Some "key"%string) (Some upload) (fun _ => inl offline).

Definition unreadableUpload : Environment :=
  mkEnvironment (Some "key"%string) None (fun _ => inr answer).

(** The service declines because of the prompt: no candidate, the ratings
    in the prompt feedback. *)
Definition promptBlocked : GenerateContentResponse :=
  mkResponse None (Some (mkPromptFeedback (Some "SAFETY"%string) (Some ratings))).

Definition blockingService : Environment :=
  mkEnvironment (Some "key"%string) (Some upload) (fun _ => inr promptBlocked).

(** A picture one pixel wide in a container 100 by 49: the rendered width,
    49 * (1 / 49) in binary64, is below 1, and the surfaces get width 0. *)
Definition sliver : Image :=
  mkImage 1 49 true (mkImageData 1 49 (solid (90, 90, 90, 255) 49)).

Definition collapsed : State :=
  setPrompt (onLoad (Some (ofNat 100, ofNat 49)) (mounted sliver)) request.

(** Clear Mask pressed before the image has loaded. *)
Definition early : State := clearMask (mounted photo).

(** A picture that failed to decode: natural size 0. The editor around
    it, with ink on the surface and a prompt; the surfaces are cut down to
    two pixels to keep the example small. *)
Definition broken : Image := mkImage 0 0 true (mkImageData 0 0 []).

Definition stalled : State :=
  mkState (Some blankCanvas) (Some inkedCanvas) false 40 request false None
          Brush true [] (-1) (Some broken).

(** One dab painted, and a prompt of a space, a no-break space (U+00A0), a
    line separator (U+2028) and a tab. *)
Definition wordless : State :=
  setPrompt inked (utf8 [32; 194; 160; 226; 128; 168; 9]).

(** The pointer goes down on the left pixel. *)
Definition press : Event (num := PrimFloat.float) := PointerDown (0, 0).

(** What happens during a stroke that changes tool on the way. *)
Definition hesitation : list (Event (num := PrimFloat.float)) :=
  [PointerMove (1, 0); ToolPicked Eraser; SizePicked 10; PointerMove (0, 0)].

(** A visit of the page: upload, then a result. *)
Definition visit : list (AppAction (File := string)) :=
  [ImageUploaded "cat.png"%string; EditCompleted upload].

(** * Properties *)

(** Case analysis on the canvas and snapshot a handler looks up. *)
Ltac destruct_handlers :=
  repeat match goal with
  | |- context [match drawingCanvasRef ?t with _ => _ end] =>
      destruct (drawingCanvasRef t)
  | |- context [match currentSnapshot ?t with _ => _ end] =>
      destruct (currentSnapshot t)
  end.

Section HistoryProperties.

Context {num : Type} {NM : Number num} {PF : Platform num}.

(** ** Arrays *)

Lemma splice_firstn {A : Type} (arr : list A) (start : Z) :
  0 <= start -> splice arr start = firstn (Z.to_nat start) arr.
Proof.
  intros Hs. unfold splice.
  destruct (start <? 0) eqn:E; [apply Z.ltb_lt in E; lia|].
  destruct (Z.le_gt_cases start (Z.of_nat (List.length arr))) as [Hle | Hgt].
  - now rewrite Z.min_l.
  - rewrite Z.min_r, Nat2Z.id by lia.
    rewrite firstn_all. symmetry. apply firstn_all2. lia.
Qed.

Lemma at_index_last {A : Type} (arr : list A) (x : A) :
  at_index (arr ++ [x]) (Z.of_nat (List.length (arr ++ [x])) - 1) = Some x.
Proof.
  unfold at_index. rewrite length_app, Nat.add_1_r.
  destruct (Z.of_nat (S (List.length arr)) - 1 <? 0) eqn:E;
    [apply Z.ltb_lt in E; lia|].
  replace (Z.to_nat (Z.of_nat (S (List.length arr)) - 1))
    with (List.length arr + 0)%nat by lia.
  now rewrite nth_error_app2, Nat.add_0_r, Nat.sub_diag by lia.
Qed.

Lemma at_index_beyond {A : Type} (arr : list A) (j : Z) :
  Z.of_nat (List.length arr) - 1 < j -> at_index arr j = None.
Proof.
  intros Hj. unfold at_index.
  destruct (j <? 0); [reflexivity|].
  apply nth_error_None. lia.
Qed.

Lemma at_index_head {A : Type} (x : A) (rest : list A) :
  at_index (x :: rest) 0 = Some x.
Proof. reflexivity. Qed.

(** ** saveToHistory *)

Lemma getImageData_area (c : Canvas) :
  hasArea c = true -> getImageData c = Some (rasterOf c).
Proof. intros H. unfold getImageData. now rewrite H. Qed.

Lemma getImageData_some (c : Canvas) (d : ImageData) :
  getImageData c = Some d -> hasArea c = true /\ d = rasterOf c.
Proof.
  unfold getImageData. destruct (hasArea c); [|discriminate].
  intros H. injection H as <-. now split.
Qed.

Lemma saveToHistory_eq (s : State) (canvas : Canvas) (snap : ImageData) :
  drawingCanvasRef s = Some canvas ->
  getImageData canvas = Some snap ->
  saveToHistory s =
    setHistory s
      (splice (history s) (historyIndex s + 1) ++ [snap])
      (Z.of_nat (List.length
         (splice (history s) (historyIndex s + 1) ++ [snap])) - 1).
Proof. intros Hc Hg. unfold saveToHistory. now rewrite Hc, Hg. Qed.

(** On a surface without area [getImageData] raises and nothing is
    pushed. *)
Lemma saveToHistory_raises (s : State) (canvas : Canvas) :
  drawingCanvasRef s = Some canvas ->
  getImageData canvas = None ->
  saveToHistory s = s.
Proof. intros Hc Hg. unfold saveToHistory. now rewrite Hc, Hg. Qed.

Lemma saveToHistory_history (s : State) (canvas : Canvas) (snap : ImageData) :
  drawingCanvasRef s = Some canvas ->
  getImageData canvas = Some snap ->
  -1 <= historyIndex s ->
  history (saveToHistory s) =
    firstn (Z.to_nat (historyIndex s + 1)) (history s) ++ [snap].
Proof.
  intros Hc Hg Hi. rewrite (saveToHistory_eq s canvas snap Hc Hg).
  now rewrite splice_firstn by lia.
Qed.

Lemma saveToHistory_index (s : State) (canvas : Canvas) (snap : ImageData) :
  drawingCanvasRef s = Some canvas ->
  getImageData canvas = Some snap ->
  historyIndex (saveToHistory s)
  = Z.of_nat (List.length (history (saveToHistory s))) - 1.
Proof. intros Hc Hg. now rewrite (saveToHistory_eq s canvas snap Hc Hg). Qed.

Lemma saveToHistory_current (s : State) (canvas : Canvas) (snap : ImageData) :
  drawingCanvasRef s = Some canvas ->
  getImageData canvas = Some snap ->
  currentSnapshot (saveToHistory s) = Some snap.
Proof.
  intros Hc Hg. rewrite (saveToHistory_eq s canvas snap Hc Hg).
  unfold currentSnapshot. cbn [history historyIndex setHistory].
  apply at_index_last.
Qed.

(** C5: pushing the snapshot read from the surface keeps the snapshots up
    to the cursor, drops every snapshot beyond it, appends the new one and
    moves the cursor to the new last index; nothing is left beyond the
    cursor to redo. *)
Theorem push_discards_redo (s : State) (canvas : Canvas) (snap : ImageData) :
  drawingCanvasRef s = Some canvas ->
  getImageData canvas = Some snap ->
  -1 <= historyIndex s ->
  let s' := saveToHistory s in
  history s' = firstn (Z.to_nat (historyIndex s + 1)) (history s) ++ [snap]
  /\ snap = rasterOf canvas
  /\ historyIndex s' = Z.of_nat (List.length (history s')) - 1
  /\ currentSnapshot s' = Some snap
  /\ forall j, historyIndex s' < j -> at_index (history s') j = None.
Proof.
  intros Hc Hg Hi s'. subst s'.
  split; [now apply (saveToHistory_history s canvas)|].
  split; [now apply getImageData_some|].
  split; [now apply (saveToHistory_index s canvas snap)|].
  split; [now apply (saveToHistory_current s canvas)|].
  intros j Hj. apply at_index_beyond.
  now rewrite <- (saveToHistory_index s canvas snap Hc Hg).
Qed.

(** ** handleUndo and clearMask *)

Lemma handleUndo_history (s : State) : history (handleUndo s) = history s.
Proof.
  unfold handleUndo. destruct (historyIndex s >? 0); [|reflexivity].
  now destruct_handlers.
Qed.

Lemma handleUndo_index (s : State) :
  historyIndex (handleUndo s) =
    if historyIndex s >? 0 then historyIndex s - 1 else historyIndex s.
Proof.
  unfold handleUndo. destruct (historyIndex s >? 0); [|reflexivity].
  now destruct_handlers.
Qed.

Lemma undoTimes_history (n : nat) (s : State) :
  history (undoTimes n s) = history s.
Proof.
  revert s. induction n as [|n IH]; intros s; cbn; [reflexivity|].
  now rewrite IH, handleUndo_history.
Qed.

Lemma undoTimes_index (n : nat) (s : State) :
  0 <= historyIndex s ->
  historyIndex (undoTimes n s) = Z.max 0 (historyIndex s - Z.of_nat n).
Proof.
  revert s. induction n as [|n IH]; intros s Hs.
  - cbn. lia.
  - cbn [undoTimes]. pose proof (handleUndo_index s) as Hu.
    destruct (historyIndex s >? 0) eqn:E.
    + apply Z.gtb_lt in E. rewrite IH by lia. lia.
    + rewrite IH by lia. assert (historyIndex s = 0).
      { destruct (Z.gtb_spec (historyIndex s) 0); [discriminate|lia]. }
      lia.
Qed.

(** ** The cursor *)

Lemma saveToHistory_cases (s : State) :
  cursorValid (saveToHistory s) \/ saveToHistory s = s.
Proof.
  unfold saveToHistory, cursorValid.
  destruct (drawingCanvasRef s) as [c|]; [|now right].
  destruct (getImageData c); [left | now right].
  cbn [history historyIndex setHistory]. rewrite length_app. cbn. lia.
Qed.

Lemma saveToHistory_valid (s : State) :
  cursorValid s -> cursorValid (saveToHistory s).
Proof.
  intros Hv. destruct (saveToHistory_cases s) as [H | H];
    [exact H | now rewrite H].
Qed.

Lemma handleUndo_valid (s : State) :
  cursorValid s -> cursorValid (handleUndo s).
Proof.
  unfold cursorValid. intros Hv.
  rewrite handleUndo_index, handleUndo_history.
  destruct (Z.gtb_spec (historyIndex s) 0); lia.
Qed.

Lemma clearMask_cases (s : State) :
  cursorValid (clearMask s)
  \/ (history (clearMask s) = history s /\ historyIndex (clearMask s) = 0).
Proof.
  unfold clearMask. destruct_handlers; try (right; split; reflexivity).
  match goal with |- context [saveToHistory ?t] =>
    destruct (saveToHistory_cases t) as [H | H] end.
  - now left.
  - right. rewrite H. split; reflexivity.
Qed.

Lemma clearMask_valid (s : State) :
  cursorValid s -> cursorValid (clearMask s).
Proof.
  intros Hv. destruct (clearMask_cases s) as [H | (Hh & Hi)]; [exact H|].
  unfold cursorValid in *. rewrite Hh, Hi. lia.
Qed.

(** C6: with a valid cursor before, the cursor is valid after a push, after
    an undo and after a clear. *)
Theorem cursor_stays_valid (s : State) :
  cursorValid s ->
  cursorValid (saveToHistory s)
  /\ cursorValid (handleUndo s)
  /\ cursorValid (clearMask s).
Proof.
  intros Hv. split; [|split].
  - now apply saveToHistory_valid.
  - now apply handleUndo_valid.
  - now apply clearMask_valid.
Qed.

(** ** Strokes *)

Lemma getImageData_same (c c' : Canvas) :
  canvasWidth c' = canvasWidth c ->
  canvasHeight c' = canvasHeight c ->
  bitmap c' = bitmap c ->
  getImageData c' = getImageData c.
Proof.
  intros Hw Hh Hb. unfold getImageData, hasArea, rasterOf.
  now rewrite Hw, Hh, Hb.
Qed.

Lemma hasArea_same (c c' : Canvas) :
  canvasWidth c' = canvasWidth c ->
  canvasHeight c' = canvasHeight c ->
  hasArea c' = hasArea c.
Proof. intros Hw Hh. unfold hasArea. now rewrite Hw, Hh. Qed.

Lemma saveToHistory_canvas (s : State) :
  drawingCanvasRef (saveToHistory s) = drawingCanvasRef s.
Proof.
  unfold saveToHistory. destruct (drawingCanvasRef s) as [c|] eqn:E; [|exact E].
  destruct (getImageData c); exact E.
Qed.

Lemma firstn_cursor_length {A : Type} (arr : list A) (i : Z) :
  -1 <= i ->
  Z.of_nat (List.length (firstn (Z.to_nat (i + 1)) arr))
  = Z.min (i + 1) (Z.of_nat (List.length arr)).
Proof. intros Hi. rewrite length_firstn. lia. Qed.

(** C10, as the code has it: a pointer-down followed at once by a
    pointer-up leaves the surface as it was and still pushes a snapshot of
    it; the cursor goes to the new last index, which is the smaller of
    cursor + 1 and the length of the history before. *)
Theorem empty_stroke_is_recorded (s : State) (canvas : Canvas)
    (snap : ImageData) (p : Point) :
  drawingCanvasRef s = Some canvas ->
  getImageData canvas = Some snap ->
  -1 <= historyIndex s ->
  let s' := stopDrawing (startDrawing p s) in
  history s' = firstn (Z.to_nat (historyIndex s + 1)) (history s) ++ [snap]
  /\ snap = rasterOf canvas
  /\ historyIndex s' =
       Z.min (historyIndex s + 1) (Z.of_nat (List.length (history s)))
  /\ currentSnapshot s' = Some snap
  /\ option_map bitmap (drawingCanvasRef s') = Some (bitmap canvas)
  /\ Z.of_nat (List.length (history s')) = historyIndex s' + 1.
Proof.
  intros Hc Hg Hi s'. subst s'.
  unfold startDrawing. rewrite Hc.
  unfold stopDrawing. cbn [drawingCanvasRef setDrawingCanvas setCanvases
    isDrawing setIsDrawing negb].
  match goal with |- context [saveToHistory ?t] => set (t0 := t) end.
  assert (Hc0 : exists c0, drawingCanvasRef t0 = Some c0
                           /\ getImageData c0 = Some snap
                           /\ bitmap c0 = bitmap canvas).
  { eexists. split; [reflexivity|]. split; [|reflexivity].
    rewrite <- Hg. now apply getImageData_same. }
  destruct Hc0 as (c0 & Hc0 & Hg0 & Hb).
  assert (Hh := saveToHistory_history t0 c0 snap Hc0 Hg0 ltac:(subst t0; cbn; lia)).
  assert (Hx := saveToHistory_index t0 c0 snap Hc0 Hg0).
  assert (Hcur := saveToHistory_current t0 c0 snap Hc0 Hg0).
  change (historyIndex t0) with (historyIndex s) in Hh.
  change (history t0) with (history s) in Hh.
  pose proof (firstn_cursor_length (history s) (historyIndex s) Hi) as Hlen.
  assert (Hl : Z.of_nat (List.length (history (saveToHistory t0)))
               = Z.min (historyIndex s + 1) (Z.of_nat (List.length (history s))) + 1).
  { rewrite Hh, length_app. cbn [List.length]. lia. }
  split; [exact Hh|].
  split; [now apply getImageData_some|].
  split; [lia|].
  split; [exact Hcur|].
  split; [|lia].
  rewrite saveToHistory_canvas, Hc0. cbn. now rewrite Hb.
Qed.

Lemma draws_frame (moves : list Point) (s : State) (c : Canvas) :
  drawingCanvasRef s = Some c ->
  let s' := fold_left (fun st p => draw p st) moves s in
  (exists c', drawingCanvasRef s' = Some c'
              /\ canvasWidth c' = canvasWidth c
              /\ canvasHeight c' = canvasHeight c)
  /\ isDrawing s' = isDrawing s
  /\ history s' = history s
  /\ historyIndex s' = historyIndex s.
Proof.
  revert s c. induction moves as [|p moves IH]; intros s c Hc; cbn.
  - split; [exists c; repeat split; assumption | repeat split].
  - assert (Hd : (exists c', drawingCanvasRef (draw p s) = Some c'
                             /\ canvasWidth c' = canvasWidth c
                             /\ canvasHeight c' = canvasHeight c)
                 /\ isDrawing (draw p s) = isDrawing s
                 /\ history (draw p s) = history s
                 /\ historyIndex (draw p s) = historyIndex s).
    { unfold draw. destruct (negb (isDrawing s)).
      - split; [exists c; repeat split; assumption | repeat split].
      - rewrite Hc. cbn.
        split; [eexists; repeat split; reflexivity | repeat split]. }
    destruct Hd as ((c' & Hc' & Hw' & Hh') & Hd1 & Hd2 & Hd3).
    destruct (IH (draw p s) c' Hc') as ((c2 & Hc2 & Hw2 & Hh2) & H2 & H3 & H4).
    split; [exists c2; repeat split; congruence|].
    repeat split; congruence.
Qed.

(** A completed stroke on a surface with an area pushes exactly one
    snapshot, the one of the surface as the stroke left it. *)
Lemma completeStroke_push (k : Stroke) (s : State) (c : Canvas) :
  drawingCanvasRef s = Some c ->
  hasArea c = true ->
  -1 <= historyIndex s ->
  exists c',
    drawingCanvasRef (completeStroke k s) = Some c'
    /\ canvasWidth c' = canvasWidth c
    /\ canvasHeight c' = canvasHeight c
    /\ history (completeStroke k s) =
         firstn (Z.to_nat (historyIndex s + 1)) (history s) ++ [rasterOf c']
    /\ historyIndex (completeStroke k s) =
         Z.of_nat (List.length (history (completeStroke k s))) - 1.
Proof.
  intros Hc Ha Hi. unfold completeStroke.
  set (s0 := setBrushSize (setTool s (strokeTool k)) (strokeWidth k)).
  assert (Hs : exists c1, drawingCanvasRef (startDrawing (strokeStart k) s0) = Some c1
               /\ canvasWidth c1 = canvasWidth c
               /\ canvasHeight c1 = canvasHeight c
               /\ isDrawing (startDrawing (strokeStart k) s0) = true
               /\ history (startDrawing (strokeStart k) s0) = history s
               /\ historyIndex (startDrawing (strokeStart k) s0) = historyIndex s).
  { unfold startDrawing. subst s0. cbn. rewrite Hc. cbn. eauto 8. }
  destruct Hs as (c1 & Hc1 & Hw1 & Hh1 & Hd1 & Hy1 & Hi1).
  destruct (draws_frame (strokeMoves k) _ c1 Hc1)
    as ((c2 & Hc2 & Hw2 & Hh2) & Hd2 & Hy2 & Hi2).
  set (s2 := fold_left _ _ _) in *.
  unfold stopDrawing. rewrite Hc2, Hd2, Hd1. cbn [negb].
  assert (Hc3 : drawingCanvasRef (setIsDrawing s2 false) = Some c2) by exact Hc2.
  assert (Ha2 : hasArea c2 = true).
  { rewrite <- Ha. apply hasArea_same; congruence. }
  assert (Hg := getImageData_area c2 Ha2).
  assert (Hh := saveToHistory_history _ c2 _ Hc3 Hg ltac:(cbn; lia)).
  assert (Hx := saveToHistory_index _ c2 _ Hc3 Hg).
  exists c2.
  split; [now rewrite saveToHistory_canvas|].
  split; [congruence|]. split; [congruence|].
  split; [|exact Hx].
  rewrite Hh.
  change (history (setIsDrawing s2 false)) with (history s2).
  change (historyIndex (setIsDrawing s2 false)) with (historyIndex s2).
  congruence.
Qed.

Lemma paint_invariant (ks : list Stroke) (s : State) (c : Canvas) (blank : ImageData) :
  drawingCanvasRef s = Some c ->
  hasArea c = true ->
  at_index (history s) 0 = Some blank ->
  historyIndex s = Z.of_nat (List.length (history s)) - 1 ->
  at_index (history (paint ks s)) 0 = Some blank
  /\ historyIndex (paint ks s) = historyIndex s + Z.of_nat (List.length ks).
Proof.
  revert s c. induction ks as [|k ks IH]; intros s c Hc Ha Hb Hi.
  - cbn. split; [exact Hb | lia].
  - cbn [paint fold_left]. fold (paint ks (completeStroke k s)).
    assert (Hne : (0 < List.length (history s))%nat).
    { destruct (history s); [discriminate | cbn; lia]. }
    destruct (completeStroke_push k s c Hc Ha)
      as (c' & Hc' & Hw & Hht & Hh & Hx); [lia|].
    assert (Hfull : firstn (Z.to_nat (historyIndex s + 1)) (history s) = history s).
    { apply firstn_all2. lia. }
    rewrite Hfull in Hh.
    destruct (IH (completeStroke k s) c' Hc') as (H1 & H2).
    + rewrite <- Ha. now apply hasArea_same.
    + rewrite Hh. destruct (history s); [discriminate | exact Hb].
    + exact Hx.
    + split; [exact H1|]. rewrite H2, Hx, Hh, length_app. cbn [List.length]. lia.
Qed.

(** On a surface without area the readback at the end of a stroke raises:
    the stroke leaves the history and the cursor as they were. *)
Lemma completeStroke_raises (k : Stroke) (s : State) (c : Canvas) :
  drawingCanvasRef s = Some c ->
  hasArea c = false ->
  exists c',
    drawingCanvasRef (completeStroke k s) = Some c'
    /\ canvasWidth c' = canvasWidth c
    /\ canvasHeight c' = canvasHeight c
    /\ history (completeStroke k s) = history s
    /\ historyIndex (completeStroke k s) = historyIndex s.
Proof.
  intros Hc Ha. unfold completeStroke.
  set (s0 := setBrushSize (setTool s (strokeTool k)) (strokeWidth k)).
  assert (Hs : exists c1, drawingCanvasRef (startDrawing (strokeStart k) s0) = Some c1
               /\ canvasWidth c1 = canvasWidth c
               /\ canvasHeight c1 = canvasHeight c
               /\ isDrawing (startDrawing (strokeStart k) s0) = true
               /\ history (startDrawing (strokeStart k) s0) = history s
               /\ historyIndex (startDrawing (strokeStart k) s0) = historyIndex s).
  { unfold startDrawing. subst s0. cbn. rewrite Hc. cbn. eauto 8. }
  destruct Hs as (c1 & Hc1 & Hw1 & Hh1 & Hd1 & Hy1 & Hi1).
  destruct (draws_frame (strokeMoves k) _ c1 Hc1)
    as ((c2 & Hc2 & Hw2 & Hh2) & Hd2 & Hy2 & Hi2).
  set (s2 := fold_left _ _ _) in *.
  unfold stopDrawing. rewrite Hc2, Hd2, Hd1. cbn [negb].
  assert (Hc3 : drawingCanvasRef (setIsDrawing s2 false) = Some c2) by exact Hc2.
  assert (Hg : getImageData c2 = None).
  { unfold getImageData.
    replace (hasArea c2) with (hasArea c); [now rewrite Ha|].
    symmetry. apply hasArea_same; congruence. }
  rewrite (saveToHistory_raises _ c2 Hc3 Hg).
  exists c2. cbn [drawingCanvasRef history historyIndex setIsDrawing].
  repeat split; congruence.
Qed.

Lemma paint_raises (ks : list Stroke) (s : State) (c : Canvas) :
  drawingCanvasRef s = Some c ->
  hasArea c = false ->
  history (paint ks s) = history s
  /\ historyIndex (paint ks s) = historyIndex s.
Proof.
  revert s c. induction ks as [|k ks IH]; intros s c Hc Ha; [now split|].
  cbn [paint fold_left]. fold (paint ks (completeStroke k s)).
  destruct (completeStroke_raises k s c Hc Ha) as (c' & Hc' & Hw & Hh & Hy & Hi).
  destruct (IH (completeStroke k s) c' Hc') as (H1 & H2).
  - rewrite <- Ha. now apply hasArea_same.
  - split; congruence.
Qed.

(** C4: after N completed strokes on the initialised history, N undos bring
    the store back to the initial blank snapshot, and no number of undos
    takes the cursor below 0. The strokes have moved the cursor to N (on a
    surface without area, where no stroke can be recorded, it has stayed
    at 0). *)
Theorem undo_all_strokes (s : State) (canvas : Canvas) (blank : ImageData)
    (strokes : list Stroke) :
  drawingCanvasRef s = Some canvas ->
  history s = [blank] ->
  historyIndex s = 0 ->
  let painted := paint strokes s in
  historyIndex painted
    = (if hasArea canvas then Z.of_nat (List.length strokes) else 0)
  /\ currentSnapshot (undoTimes (List.length strokes) painted) = Some blank
  /\ historyIndex (undoTimes (List.length strokes) painted) = 0
  /\ forall n, 0 <= historyIndex (undoTimes n painted).
Proof.
  intros Hc Hh Hi painted.
  assert (H : at_index (history painted) 0 = Some blank
              /\ historyIndex painted
                 = (if hasArea canvas then Z.of_nat (List.length strokes) else 0)
              /\ 0 <= historyIndex painted <= Z.of_nat (List.length strokes)).
  { subst painted. destruct (hasArea canvas) eqn:Ha.
    - destruct (paint_invariant strokes s canvas blank Hc Ha) as (Hb & Hx).
      { now rewrite Hh. }
      { rewrite Hh, Hi. reflexivity. }
      rewrite Hi in Hx. repeat split; try assumption; lia.
    - destruct (paint_raises strokes s canvas Hc Ha) as (Hy & Hx).
      rewrite Hy, Hx, Hh, Hi. repeat split; lia. }
  destruct H as (Hb & Hx & Hrange).
  assert (Hz : historyIndex (undoTimes (List.length strokes) painted) = 0).
  { rewrite undoTimes_index by lia. lia. }
  split; [exact Hx|]. split; [|split].
  - unfold currentSnapshot. now rewrite Hz, undoTimes_history.
  - exact Hz.
  - intros n. rewrite undoTimes_index by lia. lia.
Qed.

(** ** Clearing *)


End HistoryProperties.

Section SubmissionProperties.

Context {num : Type} {NM : Number num} {PF : Platform num}.

(** ** Rasters, four bytes at a time *)

Lemma pixels_ind (P : list Z -> Prop) :
  (forall px, (List.length px < 4)%nat -> P px) ->
  (forall r g b a rest, P rest -> P (r :: g :: b :: a :: rest)) ->
  forall px, P px.
Proof.
  intros Hshort Hpixel. fix IH 1.
  intros [|r [|g [|b [|a rest]]]]; try (apply Hshort; cbn; lia).
  apply Hpixel, IH.
Qed.


(** ** Text *)

Lemma append_empty (s : string) : (s ++ EmptyString)%string = s.
Proof. induction s as [|c s IH]; cbn; [reflexivity | now rewrite IH]. Qed.

Lemma append_associative (s t u : string) :
  ((s ++ t) ++ u)%string = (s ++ t ++ u)%string.
Proof. induction s as [|c s IH]; cbn; [reflexivity | now rewrite IH]. Qed.

Lemma includes_self (s : string) : includes s s.
Proof. exists EmptyString, EmptyString. cbn. now rewrite append_empty. Qed.

Lemma includes_here (s post : string) : includes (s ++ post) s.
Proof. exists EmptyString, post. reflexivity. Qed.

Lemma includes_skip (pre t s : string) :
  includes t s -> includes (pre ++ t) s.
Proof.
  intros (p & q & ->). exists (pre ++ p)%string, q.
  now rewrite append_associative.
Qed.


(** The mask surface has the natural size of the picture. *)
Lemma maskSurface_size (img : Image) (s : State) :
  canvasWidth (maskSurface img s) = naturalWidth img
  /\ canvasHeight (maskSurface img s) = naturalHeight img.
Proof. unfold maskSurface. destruct (currentSnapshot s); split; reflexivity. Qed.

Lemma maskSurface_area (img : Image) (s : State) :
  hasArea (maskSurface img s)
  = negb ((naturalWidth img =? 0) || (naturalHeight img =? 0))%nat.
Proof.
  unfold hasArea. destruct (maskSurface_size img s) as (-> & ->). reflexivity.
Qed.

(** ** Failures *)

Lemma editImageWithMask_error (env : Environment)
    (original mask userPrompt : string) (sent : list GenerateRequest) (e : Thrown) :
  editImageWithMask env original mask userPrompt = (sent, inl e) ->
  exists msg,
    e = ErrorObject msg
    /\ ((keyMissing env = true /\ msg = apiKeyMessage)
        \/ (exists req e0, generateContent env req = inl e0
                           /\ msg = (failurePrefix ++ describe e0)%string)
        \/ (exists req response detail,
              generateContent env req = inr response
              /\ generatedImage response = None
              /\ msg = (failurePrefix ++ noImageMessage ++ detail)%string)).
Proof.
  unfold editImageWithMask. destruct (keyMissing env) eqn:Hkey.
  - intros H. injection H as _ <-. eexists. split; [reflexivity | now left].
  - destruct (generateContent env _) as [e0 | response] eqn:Hcall.
    + intros H. injection H as _ <-. eexists. split; [reflexivity|].
      right. left. eauto.
    + destruct (generatedImage response) eqn:Himage; [discriminate|].
      intros H. injection H as _ <-. eexists. split; [reflexivity|].
      right. right. do 2 eexists.
      destruct (safetyFeedback response) as [r|].
      * eexists. split; [exact Hcall|]. split; [exact Himage | reflexivity].
      * exists EmptyString. split; [exact Hcall|]. split; [exact Himage|].
        cbn [describe]. now rewrite append_empty.
Qed.

Lemma handleGenerate_failure (env : Environment) (s : State) :
  passesValidation s ->
  delivered (handleGenerate env s) = None ->
  exists msg,
    after (handleGenerate env s)
    = setIsLoading (setError (setIsLoading (setError s None) true) (Some msg)) false
    /\ failureShown env s msg.
Proof.
  intros (Hp & canvas & drawn & Hc & Hg & Hm).
  unfold handleGenerate, failureShown. rewrite Hp, Hc, Hg, Hm. cbn [negb].
  cbn [image setIsLoading setError].
  destruct (image s) as [img|].
  - destruct (getImageData (maskSurface img _)) as [imageData|] eqn:Hmask.
    + destruct (readAsDataURL env) as [original|].
      * destruct (editImageWithMask _ _ _ _) as [sent [e | result]] eqn:Hcall.
        -- intros _. destruct (editImageWithMask_error _ _ _ _ _ _ Hcall)
             as (msg & -> & Hmsg).
           exists msg. split; [reflexivity|]. tauto.
        -- cbn. discriminate.
      * intros _. exists unknownErrorMessage. split; [reflexivity | tauto].
    + intros _. exists indexSizeMessage. split; [reflexivity|].
      right. left. exists img. split; [reflexivity|]. split; [|reflexivity].
      unfold getImageData in Hmask. rewrite maskSurface_area in Hmask.
      destruct (naturalWidth img =? 0)%nat eqn:Ew;
        [left; now apply Nat.eqb_eq|].
      destruct (naturalHeight img =? 0)%nat eqn:Eh;
        [right; now apply Nat.eqb_eq | discriminate Hmask].
  - intros _. exists imageMissingMessage. split; [reflexivity | tauto].
Qed.

Lemma failure_message_shown (env : Environment) (s : State) (msg : string) :
  failureShown env s msg -> isEmpty msg = false.
Proof.
  intros [(_ & ->) | [(img & _ & _ & ->) | [(_ & ->) | [(_ & ->)
         | [(req & e & _ & ->) | (req & response & detail & _ & _ & ->)]]]]];
    try reflexivity.
  apply indexSizeMessage_shown.
Qed.

(** C7: a submission that passed validation and delivered no image left
    the image, the history, the cursor, the prompt and both surfaces as
    they were, cleared the loading flag, and set an error message that is
    not empty, so that it is rendered. The message goes with the cause: the
    picture is missing; its natural size is 0, so that the readback of the
    mask canvas raised; the file could not be read; the key is missing;
    the request failed, and the message is the wrapper's prefix with the
    failure's text; or the service answered without an image, and the
    message is the prefix with the no-image text. *)
Theorem failure_preserves_state (env : Environment) (s : State) :
  passesValidation s ->
  delivered (handleGenerate env s) = None ->
  let s' := after (handleGenerate env s) in
  image s' = image s
  /\ history s' = history s
  /\ historyIndex s' = historyIndex s
  /\ prompt s' = prompt s
  /\ drawingCanvasRef s' = drawingCanvasRef s
  /\ imageCanvasRef s' = imageCanvasRef s
  /\ (exists msg,
        error s' = Some msg /\ isEmpty msg = false /\ failureShown env s msg)
  /\ isLoading s' = false.
Proof.
  intros Hv Hfail s'. subst s'.
  destruct (handleGenerate_failure env s Hv Hfail) as (msg & -> & Hmsg).
  repeat split.
  exists msg. split; [reflexivity|].
  split; [now apply (failure_message_shown env s) | exact Hmsg].
Qed.

(** ** Safety ratings *)

(** The ratings the wrapper reads: those of the first candidate. *)
Lemma safetyFeedback_first (response : GenerateContentResponse) :
  safetyFeedback response =
    match candidates response with
    | Some (c :: _) => safetyRatings c
    | _ => None
    end.
Proof.
  unfold safetyFeedback, firstCandidate.
  destruct (candidates response) as [[|c cs]|]; reflexivity.
Qed.

(** C8, as the code has it: when the service answers without an image the
    call fails with an [Error] whose message is the wrapper's prefix, the
    no-image text and, when the first candidate of the answer carries
    safety ratings, those ratings serialised. Ratings anywhere else in the
    answer do not appear. *)
Theorem safety_details_are_reported (env : Environment)
    (original mask userPrompt : string) (response : GenerateContentResponse) :
  keyMissing env = false ->
  generateContent env (generationRequest original mask userPrompt) = inr response ->
  generatedImage response = None ->
  editImageWithMask env original mask userPrompt =
    ([generationRequest original mask userPrompt],
     inl (ErrorObject
       (failurePrefix ++
        match candidates response with
        | Some (c :: _) =>
            match safetyRatings c with
            | Some r =>
                noImageMessage ++ " Safety feedback: " ++ JSON_stringify r
            | None => noImageMessage
            end
        | _ => noImageMessage
        end)%string)).
Proof.
  intros Hkey Hresp Hnone. unfold editImageWithMask.
  rewrite Hkey, Hresp, Hnone, safetyFeedback_first.
  destruct (candidates response) as [[|c cs]|]; reflexivity.
Qed.

(** The ratings of the first candidate reach the user: the component shows
    the message the wrapper threw. *)
Lemma safety_details_reach_user (env : Environment) (s : State) (img : Image)
    (original : string) (response : GenerateContentResponse)
    (c : Candidate) (rest : list Candidate) (r : list SafetyRating) :
  passesValidation s ->
  image s = Some img ->
  hasArea (maskSurface img s) = true ->
  readAsDataURL env = Some original ->
  keyMissing env = false ->
  (forall req, generateContent env req = inr response) ->
  generatedImage response = None ->
  candidates response = Some (c :: rest) ->
  safetyRatings c = Some r ->
  exists msg,
    error (after (handleGenerate env s)) = Some msg
    /\ includes msg (JSON_stringify r)
    /\ List.length (requests (handleGenerate env s)) = 1%nat.
Proof.
  intros (Hp & canvas & drawn & Hc & Hg & Hm) Himg Ha Hread Hkey Hresp Hnone Hcs Hr.
  unfold handleGenerate. rewrite Hp, Hc, Hg, Hm. cbn [negb].
  cbn [image setIsLoading setError]. rewrite Himg.
  match goal with |- context [getImageData ?m] =>
    replace (getImageData m) with (Some (rasterOf m))
      by (symmetry; apply getImageData_area; exact Ha) end.
  rewrite Hread.
  unfold editImageWithMask.
  rewrite Hkey, Hresp, Hnone, safetyFeedback_first, Hcs, Hr.
  cbn [after requests failWith describe error setIsLoading setError].
  eexists. split; [reflexivity|]. split; [|reflexivity].
  do 3 apply includes_skip. apply includes_self.
Qed.

Lemma includes_mentions (c : ascii) (t s : string) :
  includes t s -> mentions c s = true -> mentions c t = true.
Proof.
  intros (pre & post & ->) Hs.
  induction pre as [|d pre IH]; cbn.
  - induction s as [|d s IHs]; [discriminate|].
    cbn in *. destruct (Ascii.eqb c d); [reflexivity|]. now apply IHs.
  - rewrite IH. apply orb_true_r.
Qed.

(** ** The mask canvas *)

Lemma solid_length (col : Color) (n : nat) :
  List.length (solid col n) = (4 * n)%nat.
Proof.
  destruct col as [[[r g] b] a].
  induction n as [|n IH]; cbn; [reflexivity | rewrite IH; lia].
Qed.

Lemma firstn_plus {A : Type} (a b : nat) (l : list A) :
  firstn (a + b) l = firstn a l ++ firstn b (skipn a l).
Proof.
  revert l. induction a as [|a IH]; intros l; [reflexivity|].
  destruct l as [|x l]; cbn; [now rewrite firstn_nil | now rewrite IH].
Qed.

Lemma skipn_plus {A : Type} (a b : nat) (l : list A) :
  skipn (a + b) l = skipn b (skipn a l).
Proof.
  revert l. induction a as [|a IH]; intros l; [reflexivity|].
  destruct l as [|x l]; cbn; [now rewrite skipn_nil | apply IH].
Qed.

(** Reading a raster back chunk by chunk gives the raster. *)
Lemma chunks_firstn {A : Type} (k n base : nat) (l : list A) :
  flat_map (fun i => firstn k (skipn (k * i) l)) (seq base n)
  = firstn (k * n) (skipn (k * base) l).
Proof.
  revert base. induction n as [|n IH]; intros base.
  - now rewrite Nat.mul_0_r.
  - cbn [seq flat_map]. rewrite IH.
    replace (k * S n)%nat with (k + k * n)%nat by lia.
    rewrite firstn_plus. f_equal.
    replace (k * S base)%nat with (k * base + k)%nat by lia.
    now rewrite skipn_plus.
Qed.

Lemma flat_map_ext_in {A B : Type} (f g : A -> list B) (l : list A) :
  (forall a, In a l -> f a = g a) -> flat_map f l = flat_map g l.
Proof.
  induction l as [|x l IH]; intros H; [reflexivity|].
  cbn. rewrite (H x) by now left. rewrite IH; [reflexivity|].
  intros a Ha. apply H. now right.
Qed.

(** [putImageData] of an image of the canvas's own size replaces the whole
    surface. *)
Lemma putImageData_same_size (img : ImageData) (c : Canvas) :
  width img = canvasWidth c ->
  height img = canvasHeight c ->
  List.length (data img) = (4 * (canvasWidth c * canvasHeight c))%nat ->
  bitmap (putImageData img c) = data img.
Proof.
  intros Hw Hh Hlen. unfold putImageData. cbn [bitmap withBitmap].
  rewrite Hw, Hh.
  rewrite (flat_map_ext_in _
    (fun y => firstn (4 * canvasWidth c)
                (skipn ((4 * canvasWidth c) * y) (data img)))).
  - rewrite chunks_firstn, Nat.mul_0_r. cbn [skipn].
    apply firstn_all2. lia.
  - intros y Hy. apply in_seq in Hy.
    rewrite (flat_map_ext_in _
      (fun x => firstn 4 (skipn (4 * x) (skipn ((4 * canvasWidth c) * y) (data img))))).
    + rewrite chunks_firstn, Nat.mul_0_r. reflexivity.
    + intros x Hx. apply in_seq in Hx.
      replace (x <? canvasWidth c)%nat with true by (symmetry; apply Nat.ltb_lt; lia).
      replace (y <? canvasHeight c)%nat with true by (symmetry; apply Nat.ltb_lt; lia).
      cbn [andb]. unfold pixelAt. rewrite <- skipn_plus. f_equal. f_equal. lia.
Qed.

Lemma fill_black (n : nat) :
  blend SourceOver (solid black n) (solid (0, 0, 0, 0) n) = solid black n.
Proof. induction n as [|n IH]; [reflexivity|]. cbn in *. now rewrite IH. Qed.

Lemma over_opaque_alpha (sa : Z) : sa + 255 * (255 - sa) / 255 = 255.
Proof. rewrite Z.mul_comm, Z.div_mul by lia. lia. Qed.

(** Whatever is drawn over an opaque surface, every pixel of the result
    passes the loop's alpha test. *)
Lemma whiten_over_opaque (r g b : Z) (n : nat) (src : list Z) :
  whiten (readback (blend SourceOver src (solid (r, g, b, 255) n)))
  = solid white n.
Proof.
  revert src. induction n as [|n IH]; intros src; [reflexivity|].
  cbn [solid blend].
  destruct src as [|sr [|sg [|sb [|sa src']]]];
    cbn [blendPixel app]; rewrite over_opaque_alpha;
    cbn [readback whiten Z.eqb Z.gtb Z.compare]; rewrite IH; reflexivity.
Qed.

Lemma whiten_opaque (r g b : Z) (n : nat) :
  whiten (readback (solid (r, g, b, 255) n)) = solid white n.
Proof. induction n as [|n IH]; [reflexivity|]. cbn in *. now rewrite IH. Qed.

(** The mask canvas is white all over, with or without ink underneath:
    the surface is opaque before the loop runs, so the loop's test never
    fails. *)
Lemma composeMask_white (img : Image) (s : State) :
  canvasWidth (composeMask img s) = naturalWidth img
  /\ canvasHeight (composeMask img s) = naturalHeight img
  /\ bitmap (composeMask img s)
     = solid white (naturalWidth img * naturalHeight img).
Proof.
  unfold composeMask, binarise, maskSurface. split; [|split].
  - destruct (currentSnapshot s); reflexivity.
  - destruct (currentSnapshot s); reflexivity.
  - set (n := (naturalWidth img * naturalHeight img)%nat).
    assert (Hdata : forall c : Canvas,
      canvasWidth c = naturalWidth img -> canvasHeight c = naturalHeight img ->
      whiten (readback (bitmap c)) = solid white n ->
      bitmap (putImageData
                (mkImageData (width (rasterOf c)) (height (rasterOf c))
                             (whiten (data (rasterOf c)))) c)
      = solid white n).
    { intros c Hw Hh Hwhite. rewrite putImageData_same_size.
      - exact Hwhite.
      - reflexivity.
      - reflexivity.
      - cbn [data rasterOf]. rewrite Hwhite, solid_length, Hw, Hh. reflexivity. }
    destruct (currentSnapshot s) as [snap|]; apply Hdata; try reflexivity.
    + unfold drawImage, fillRect, createCanvas.
      cbn [bitmap withBitmap canvasWidth canvasHeight globalCompositeOperation].
      fold n. rewrite fill_black. apply whiten_over_opaque.
    + unfold fillRect, createCanvas.
      cbn [bitmap withBitmap canvasWidth canvasHeight globalCompositeOperation].
      fold n. rewrite fill_black. apply whiten_opaque.
Qed.

End SubmissionProperties.

Section SessionProperties.

Context {num : Type} {NM : Number num} {PF : Platform num}.

(** ** Every reachable state *)

Lemma handleGenerate_frame (env : Environment) (s : State) :
  history (after (handleGenerate env s)) = history s
  /\ historyIndex (after (handleGenerate env s)) = historyIndex s.
Proof.
  unfold handleGenerate.
  destruct (isEmpty (trim (prompt s))); [split; reflexivity|].
  destruct (drawingCanvasRef s) as [canvas|]; [|split; reflexivity].
  destruct (getImageData canvas); [|split; reflexivity].
  destruct (negb _); [split; reflexivity|].
  cbn [image setIsLoading setError].
  destruct (image s) as [img|]; [|split; reflexivity].
  destruct (getImageData (maskSurface img _)); [|split; reflexivity].
  destruct (readAsDataURL env); [|split; reflexivity].
  destruct (editImageWithMask _ _ _ _) as [sent [e | result]];
    split; reflexivity.
Qed.

Lemma resizeCanvases_frame (container : option (num * num)) (s : State) :
  history (resizeCanvases container s) = history s
  /\ historyIndex (resizeCanvases container s) = historyIndex s.
Proof.
  unfold resizeCanvases.
  destruct (image s); [|split; reflexivity].
  destruct container as [[cw ch]|]; [|split; reflexivity].
  destruct (imageCanvasRef s); [|split; reflexivity].
  destruct (drawingCanvasRef s); [|split; reflexivity].
  destruct (naturalWidth _ =? 0)%nat; [split; reflexivity|].
  destruct (renderSize _ _ _ _). split; reflexivity.
Qed.

Lemma cursorSound_frame (s s' : State) :
  history s' = history s -> historyIndex s' = historyIndex s ->
  cursorSound s -> cursorSound s'.
Proof. unfold cursorSound, cursorValid. intros -> ->. tauto. Qed.

Lemma saveToHistory_sound (s : State) :
  cursorSound s -> cursorSound (saveToHistory s).
Proof.
  intros Hs. destruct (saveToHistory_cases s) as [H | H];
    [now right | now rewrite H].
Qed.

Lemma handle_sound (e : Event) (s : State) :
  cursorSound s -> cursorSound (handle e s).
Proof.
  intros Hs. destruct e; cbn [handle]; try exact Hs.
  - (* pointer down *)
    unfold startDrawing. destruct (drawingCanvasRef s); exact Hs.
  - (* pointer move *)
    unfold draw. destruct (negb (isDrawing s)); [exact Hs|].
    destruct (drawingCanvasRef s); exact Hs.
  - (* pointer up *)
    unfold stopDrawing. destruct (drawingCanvasRef s); [|exact Hs].
    destruct (negb (isDrawing s)); [exact Hs|].
    apply saveToHistory_sound. exact Hs.
  - (* undo *)
    destruct Hs as [(Hh & Hi) | Hv]; [|right; now apply handleUndo_valid].
    left. rewrite handleUndo_history, handleUndo_index.
    destruct (Z.gtb_spec (historyIndex s) 0); split; try assumption; lia.
  - (* clear *)
    destruct (clearMask_cases s) as [H | (Hh & Hi)]; [now right|].
    unfold cursorSound, cursorValid in *. rewrite Hh, Hi.
    destruct (history s); cbn [List.length]; [left; split; [reflexivity | lia]|right; lia].
  - (* container resized *)
    unfold onResize. destruct (image s); [|exact Hs].
    destruct (_ && _); [|exact Hs].
    destruct (resizeCanvases_frame container s) as (Hh & Hi).
    now apply (cursorSound_frame s).
  - (* image loaded *)
    unfold onLoad. apply saveToHistory_sound.
    destruct (resizeCanvases_frame container s) as (Hh & Hi).
    now apply (cursorSound_frame s).
  - (* generate *)
    destruct (handleGenerate_frame env s) as (Hh & Hi).
    now apply (cursorSound_frame s).
Qed.

(** X20: from the mount on, whatever happens, the cursor is never below
    -1, and as soon as the history holds a snapshot it names one. *)
Lemma reachable_cursor (img : Image) (events : list Event) :
  let s := run events (mounted img) in
  -1 <= historyIndex s /\ (history s <> [] -> cursorValid s).
Proof.
  intros s.
  assert (Hs : cursorSound s).
  { subst s. unfold run.
    assert (H0 : cursorSound (mounted img)) by (left; cbn; split; [reflexivity | lia]).
    revert H0. generalize (mounted img).
    induction events as [|e events IH]; intros s0 H0; [exact H0|].
    cbn [fold_left]. apply IH. now apply handle_sound. }
  destruct Hs as [(Hh & Hi) | Hv].
  - split; [lia | congruence].
  - split; [unfold cursorValid in Hv; lia | auto].
Qed.

Lemma createCanvas_transparent (w h : nat) : transparent (createCanvas w h).
Proof.
  unfold transparent, createCanvas. cbn [bitmap].
  induction (w * h)%nat as [|n IH]; cbn; constructor; [reflexivity | exact IH].
Qed.

(** X21: when the image loads on a freshly mounted editor the drawing
    surface carries no ink. If it has an area, the history becomes the one
    snapshot of it and the cursor 0; if the computed size left it without
    area, the readback raises: the history stays empty and the cursor -1. *)
Lemma onLoad_initialises (container : option (num * num)) (img : Image) :
  let s := onLoad container (mounted img) in
  exists canvas,
    drawingCanvasRef s = Some canvas
    /\ transparent canvas
    /\ if hasArea canvas
       then history s = [rasterOf canvas] /\ historyIndex s = 0
       else history s = [] /\ historyIndex s = -1.
Proof.
  intros s.
  assert (H : exists w h,
    drawingCanvasRef (resizeCanvases container (mounted img))
      = Some (createCanvas w h)
    /\ history (resizeCanvases container (mounted img)) = []
    /\ historyIndex (resizeCanvases container (mounted img)) = -1).
  { unfold resizeCanvases. cbn [image imageCanvasRef drawingCanvasRef mounted].
    destruct container as [[cw ch]|]; [|exists 300%nat, 150%nat; now repeat split].
    destruct (naturalWidth img =? 0)%nat; [exists 300%nat, 150%nat; now repeat split|].
    destruct (renderSize _ _ _ _) as [rw rh].
    exists (toLength rw), (toLength rh). now repeat split. }
  destruct H as (w & h & Hc & Hh & Hi).
  exists (createCanvas w h). subst s. unfold onLoad.
  split; [now rewrite saveToHistory_canvas|].
  split; [apply createCanvas_transparent|].
  destruct (hasArea (createCanvas w h)) eqn:Ha.
  - rewrite (saveToHistory_eq _ _ _ Hc (getImageData_area _ Ha)), Hh, Hi.
    split; reflexivity.
  - rewrite (saveToHistory_raises _ _ Hc); [now split|].
    unfold getImageData. now rewrite Ha.
Qed.

End SessionProperties.

Section ExactResize.

Context {PF : Platform Q}.

Local Open Scope Q_scope.

(** The rectangle of [renderSize] read in exact arithmetic is the largest
    rectangle of the specification: it fits the container, has the image's
    proportions, and no rectangle with these two properties is wider or
    taller. The component does not compute in exact arithmetic; what it
    computes is compared with this below. *)
Lemma renderSize_exact (naturalW naturalH : nat) (cw ch : Q) :
  (0 < naturalW)%nat -> (0 < naturalH)%nat -> 0 < cw -> 0 < ch ->
  let rw := fst (renderSize naturalW naturalH cw ch) in
  let rh := snd (renderSize naturalW naturalH cw ch) in
  rw <= cw /\ rh <= ch
  /\ rw * ofNat naturalH == rh * ofNat naturalW
  /\ forall w h,
       w * ofNat naturalH == h * ofNat naturalW -> w <= cw -> h <= ch ->
       w <= rw /\ h <= rh.
Proof.
  intros Hw Hh Hcw Hch. unfold renderSize.
  cbn [ofNat ndiv nmul ngt exactNumber].
  set (a := inject_Z (Z.of_nat naturalW)).
  set (b := inject_Z (Z.of_nat naturalH)).
  assert (Ha : 0 < a).
  { unfold a. rewrite <- (Zlt_Qlt 0). lia. }
  assert (Hb : 0 < b).
  { unfold b. rewrite <- (Zlt_Qlt 0). lia. }
  set (A := a / b).
  assert (HA : A * b == a) by (unfold A; field; lra).
  assert (HA0 : 0 < A) by (unfold A; apply Qlt_shift_div_l; lra).
  set (C := cw / ch).
  assert (HC : C * ch == cw) by (unfold C; field; lra).
  destruct (Qle_bool A C) eqn:E; cbn [negb fst snd].
  - apply Qle_bool_iff in E.
    assert (ch * A <= cw) by nra.
    repeat split; try lra; try nra.
  - assert (C < A).
    { destruct (Qlt_le_dec C A) as [H | H]; [exact H|].
      apply Qle_bool_iff in H. congruence. }
    assert (HR : (cw / A) * A == cw) by (field; lra).
    set (rh := cw / A) in *.
    assert (rh <= ch) by nra.
    repeat split; try lra; try nra.
Qed.

End ExactResize.

Section ResizeProperties.

Context {num : Type} {NM : Number num} {PF : Platform num}.




End ResizeProperties.

(** * Further properties *)

(** ** Data URLs and prompts *)

Lemma indexOfComma_lower (s : string) : -1 <= indexOfComma s.
Proof.
  induction s as [|c s IH]; cbn; [lia|].
  destruct (Ascii.eqb c ","); [lia|].
  destruct (indexOfComma s <? 0) eqn:E; [lia|]. apply Z.ltb_ge in E. lia.
Qed.

Lemma indexOfComma_first (pre rest : string) :
  indexOfComma pre = -1 ->
  indexOfComma (pre ++ String "," rest) = Z.of_nat (String.length pre).
Proof.
  induction pre as [|c pre IH]; intros Hno.
  - reflexivity.
  - cbn in Hno. cbn [append indexOfComma String.length].
    destruct (Ascii.eqb c ","); [discriminate|].
    destruct (indexOfComma pre <? 0) eqn:E.
    + assert (Hpre : indexOfComma pre = -1).
      { apply Z.ltb_lt in E. pose proof (indexOfComma_lower pre). lia. }
      rewrite (IH Hpre).
      destruct (Z.of_nat (String.length pre) <? 0) eqn:E2;
        [apply Z.ltb_lt in E2; lia | lia].
    + apply Z.ltb_ge in E. lia.
Qed.

Lemma dropChars_append (pre rest : string) :
  dropChars (String.length pre) (pre ++ rest) = rest.
Proof. induction pre as [|c pre IH]; [now destruct rest | exact IH]. Qed.

Lemma append_comma (header payload : string) :
  (header ++ String "," payload)%string
  = ((header ++ String "," EmptyString) ++ payload)%string.
Proof. induction header as [|c h IH]; cbn; [reflexivity | now rewrite IH]. Qed.

Lemma length_append_comma (header : string) :
  String.length (header ++ String "," EmptyString)
  = Z.to_nat (Z.of_nat (String.length header) + 1).
Proof. induction header as [|c h IH]; cbn [append String.length]; lia. Qed.

Lemma payload_after_comma (header payload : string) :
  indexOfComma header = -1 ->
  fileDataToBase64 (header ++ String "," payload) = payload.
Proof.
  intros Hno. unfold fileDataToBase64, substringFrom.
  rewrite (indexOfComma_first header payload Hno), <- length_append_comma.
  rewrite (append_comma header payload). apply dropChars_append.
Qed.

(** X1: [fileDataToBase64] cuts a data URL after its first comma, and
    leaves a text without a comma as it is. *)
Theorem fileDataToBase64_strips_header (header payload : string) :
  indexOfComma header = -1 ->
  fileDataToBase64 (header ++ String "," payload) = payload
  /\ fileDataToBase64 header = header.
Proof.
  intros Hno. split; [now apply payload_after_comma|].
  unfold fileDataToBase64, substringFrom. rewrite Hno. now destruct header.
Qed.

(** ** White space *)

Lemma whiteSpace_one (c : ascii) :
  isWhiteSpace c = true -> In (String c EmptyString) whiteSpaceCharacters.
Proof.
  destruct c as [[] [] [] [] [] [] [] []]; intros H; try discriminate H;
    vm_compute; tauto.
Qed.

Lemma ascii_of_code (c : ascii) (n : nat) :
  (nat_of_ascii c =? n)%nat = true -> c = ascii_of_nat n.
Proof.
  intros H. apply Nat.eqb_eq in H. rewrite <- H.
  symmetry. apply ascii_nat_embedding.
Qed.

Lemma whiteSpace_two (c d : ascii) :
  isWhiteSpace2 c d = true ->
  In (String c (String d EmptyString)) whiteSpaceCharacters.
Proof.
  unfold isWhiteSpace2. intros H. apply andb_prop in H as (Hc & Hd).
  apply ascii_of_code in Hc, Hd. subst c d. vm_compute. tauto.
Qed.

Lemma whiteSpace_three (c d e : ascii) :
  isWhiteSpace3 c d e = true ->
  In (String c (String d (String e EmptyString))) whiteSpaceCharacters.
Proof.
  unfold isWhiteSpace3.
  rewrite <- (ascii_nat_embedding c), <- (ascii_nat_embedding d),
          <- (ascii_nat_embedding e).
  rewrite !nat_ascii_embedding by apply nat_ascii_bounded.
  generalize (nat_of_ascii c) (nat_of_ascii d) (nat_of_ascii e).
  intros x y z H.
  repeat rewrite ?orb_true_iff, ?andb_true_iff, ?Nat.eqb_eq, ?Nat.leb_le in H.
  assert (Hz : (128 <= z <= 138 ->
    z = 128 \/ z = 129 \/ z = 130 \/ z = 131 \/ z = 132 \/ z = 133 \/ z = 134
    \/ z = 135 \/ z = 136 \/ z = 137 \/ z = 138)%nat) by lia.
  destruct H as [[[[H | H] | H] | H] | H]; destruct H as ((-> & ->) & H).
  - subst z. vm_compute. tauto.
  - destruct H as [[[Hr | ->] | ->] | ->].
    + destruct (Hz Hr)
        as [-> | [-> | [-> | [-> | [-> | [-> | [-> | [-> | [-> | [-> | ->]]]]]]]]]];
        vm_compute; tauto.
    + vm_compute. tauto.
    + vm_compute. tauto.
    + vm_compute. tauto.
  - subst z. vm_compute. tauto.
  - subst z. vm_compute. tauto.
  - subst z. vm_compute. tauto.
Qed.

(** [trimStart] strips white space characters from the front, one after
    the other, and stops at the first text that does not begin with one. *)
Lemma trimStart_cases (P : string -> string -> Prop) :
  P EmptyString EmptyString ->
  (forall w rest r,
     In w whiteSpaceCharacters -> trimStart (w ++ rest)%string = trimStart rest ->
     P rest r -> P (w ++ rest)%string r) ->
  (forall c rest, trimStart (String c rest) = String c rest ->
                  P (String c rest) (String c rest)) ->
  forall s, P s (trimStart s).
Proof.
  intros Hempty Hstrip Hstop.
  assert (H : forall n s, (String.length s <= n)%nat -> P s (trimStart s)).
  { induction n as [|n IH]; intros s Hn.
    - destruct s; [exact Hempty | cbn in Hn; lia].
    - destruct s as [|c rest]; [exact Hempty|]. cbn [String.length] in Hn.
      destruct (isWhiteSpace c) eqn:E1.
      { assert (Ht : trimStart (String c rest) = trimStart rest)
          by (cbn [trimStart]; now rewrite E1).
        rewrite Ht. apply (Hstrip (String c EmptyString) rest).
        - now apply whiteSpace_one.
        - exact Ht.
        - apply IH. lia. }
      destruct rest as [|d rest2].
      { assert (Ht : trimStart (String c EmptyString) = String c EmptyString)
          by (cbn [trimStart]; now rewrite E1).
        rewrite Ht. now apply Hstop. }
      cbn [String.length] in Hn.
      destruct (isWhiteSpace2 c d) eqn:E2.
      { assert (Ht : trimStart (String c (String d rest2)) = trimStart rest2)
          by (cbn [trimStart]; now rewrite E1, E2).
        rewrite Ht. apply (Hstrip (String c (String d EmptyString)) rest2).
        - now apply whiteSpace_two.
        - exact Ht.
        - apply IH. lia. }
      destruct rest2 as [|e rest3].
      { assert (Ht : trimStart (String c (String d EmptyString))
                     = String c (String d EmptyString))
          by (cbn [trimStart]; now rewrite E1, E2).
        rewrite Ht. now apply Hstop. }
      cbn [String.length] in Hn.
      destruct (isWhiteSpace3 c d e) eqn:E3.
      { assert (Ht : trimStart (String c (String d (String e rest3)))
                     = trimStart rest3)
          by (cbn [trimStart]; now rewrite E1, E2, E3).
        rewrite Ht.
        apply (Hstrip (String c (String d (String e EmptyString))) rest3).
        - now apply whiteSpace_three.
        - exact Ht.
        - apply IH. lia. }
      assert (Ht : trimStart (String c (String d (String e rest3)))
                   = String c (String d (String e rest3)))
        by (cbn [trimStart]; now rewrite E1, E2, E3).
      rewrite Ht. now apply Hstop. }
  intros s. now apply (H (String.length s)).
Qed.

Lemma trimStart_strips (w rest : string) :
  In w whiteSpaceCharacters -> trimStart (w ++ rest)%string = trimStart rest.
Proof.
  intros Hin. unfold whiteSpaceCharacters in Hin. cbn [map In] in Hin.
  repeat (destruct Hin as [<- | Hin]; [reflexivity|]).
  destruct Hin.
Qed.

Lemma trimStart_blank (s : string) : Blank s -> trimStart s = EmptyString.
Proof.
  induction 1 as [|w rest Hin _ IH]; [reflexivity|].
  now rewrite trimStart_strips.
Qed.

Lemma trimStart_empty (s : string) : trimStart s = EmptyString -> Blank s.
Proof.
  apply (trimStart_cases (fun s r => r = EmptyString -> Blank s)).
  - intros _. constructor.
  - intros w rest r Hin _ IH Hr. constructor; auto.
  - discriminate.
Qed.

Lemma trimStart_idempotent (s : string) : trimStart (trimStart s) = trimStart s.
Proof.
  apply (trimStart_cases (fun _ r => trimStart r = r)); auto.
Qed.

Lemma trimEnd_empty (s : string) : isEmpty (trimEnd s) = isEmpty (trimStart s).
Proof.
  destruct s as [|c rest]; [reflexivity|].
  cbn [trimEnd]. now destruct (isEmpty (trimStart (String c rest))).
Qed.

(** [!prompt.trim()] holds exactly of the texts made of white space
    characters. *)
Lemma trim_empty_iff_blank (s : string) : isEmpty (trim s) = true <-> Blank s.
Proof.
  unfold trim. rewrite trimEnd_empty, trimStart_idempotent. split.
  - intros H. apply trimStart_empty. now destruct (trimStart s).
  - intros H. now rewrite (trimStart_blank s H).
Qed.


Section FurtherSubmission.

Context {num : Type} {NM : Number num} {PF : Platform num}.

(** ** What a submission does *)

(** X2: a prompt made of white space characters only - spaces, tabs, line
    ends, no-break spaces and the other white space of the language - is
    turned down before the surface is even looked at: the prompt message is
    set, nothing else changes, and nothing is called or sent. *)
Theorem blank_prompt_is_rejected (env : Environment) (s : State) :
  Blank (prompt s) ->
  handleGenerate env s = mkSubmission (setError s (Some promptError)) [] [] None.
Proof.
  intros Hb. apply trim_empty_iff_blank in Hb.
  unfold handleGenerate. now rewrite Hb.
Qed.




(** The state [handleGenerate] has reached when the mask is built: past the
    two checks, with an image whose natural size is not zero. *)
Lemma handleGenerate_validated (env : Environment) (s : State) (img : Image) :
  passesValidation s ->
  image s = Some img ->
  naturalWidth img <> 0%nat ->
  naturalHeight img <> 0%nat ->
  handleGenerate env s =
    let s1 := setIsLoading (setError s None) true in
    let maskBase64 := toDataURL (rasterOf (composeMask img s1)) in
    match readAsDataURL env with
    | None =>
        mkSubmission (failWith s1 (OtherValue "[object ProgressEvent]"%string))
                     [] [] None
    | Some originalImageBase64 =>
        let call := (originalImageBase64, maskBase64, prompt s1) in
        match editImageWithMask env originalImageBase64 maskBase64 (prompt s1) with
        | (sent, inl e) => mkSubmission (failWith s1 e) [call] sent None
        | (sent, inr result) =>
            mkSubmission (setIsLoading s1 false) [call] sent (Some result)
        end
    end.
Proof.
  intros (Hp & canvas & drawn & Hc & Hg & Hm) Himg Hw Hh.
  unfold handleGenerate. rewrite Hp, Hc, Hg, Hm. cbn [negb].
  cbn [image setIsLoading setError]. rewrite Himg.
  match goal with |- context [getImageData ?m] =>
    assert (Ha : getImageData m = Some (rasterOf m)) end.
  { apply getImageData_area. rewrite maskSurface_area.
    apply Nat.eqb_neq in Hw, Hh. now rewrite Hw, Hh. }
  rewrite Ha. reflexivity.
Qed.


(** X5: when the request itself fails, one request has been sent, and the
    user sees the failure's text behind the wrapper's prefix. *)
Theorem transport_failure_is_reported (env : Environment) (s : State)
    (img : Image) (original : string) (e : Thrown) :
  passesValidation s ->
  image s = Some img ->
  naturalWidth img <> 0%nat ->
  naturalHeight img <> 0%nat ->
  readAsDataURL env = Some original ->
  keyMissing env = false ->
  (forall req, generateContent env req = inl e) ->
  let run := handleGenerate env s in
  error (after run) = Some ("Failed to edit image: " ++ describe e)%string
  /\ isLoading (after run) = false
  /\ List.length (requests run) = 1%nat
  /\ delivered run = None.
Proof.
  intros Hv Himg Hw Hh Hread Hkey Hfail run. subst run.
  rewrite (handleGenerate_validated env s img Hv Himg Hw Hh).
  cbn zeta. rewrite Hread.
  unfold editImageWithMask. rewrite Hkey, Hfail. repeat split.
Qed.

(** X6: when the uploaded file cannot be read, the rejection carries no
    [Error], so the user sees the fallback message; the service wrapper is
    not called. *)
Theorem unreadable_file_is_reported (env : Environment) (s : State)
    (img : Image) :
  passesValidation s ->
  image s = Some img ->
  naturalWidth img <> 0%nat ->
  naturalHeight img <> 0%nat ->
  readAsDataURL env = None ->
  let run := handleGenerate env s in
  error (after run) = Some unknownErrorMessage
  /\ isLoading (after run) = false
  /\ collaboratorCalls run = []
  /\ requests run = []
  /\ delivered run = None.
Proof.
  intros Hv Himg Hw Hh Hread run. subst run.
  rewrite (handleGenerate_validated env s img Hv Himg Hw Hh).
  cbn zeta. rewrite Hread. repeat split.
Qed.

(** X7: when the service answers with an image in its first part, that
    image is handed to [onEditComplete] as a PNG data URL, the error is
    cleared, loading ends, and exactly one request went out: the prompt,
    the file and the mask canvas of the current snapshot. *)
Theorem success_delivers_image (env : Environment) (s : State) (img : Image)
    (original : string) (response : GenerateContentResponse) (blob : Blob) :
  passesValidation s ->
  image s = Some img ->
  naturalWidth img <> 0%nat ->
  naturalHeight img <> 0%nat ->
  readAsDataURL env = Some original ->
  keyMissing env = false ->
  (forall req, generateContent env req = inr response) ->
  generatedImage response = Some blob ->
  let run := handleGenerate env s in
  let maskBase64 := toDataURL (rasterOf (composeMask img s)) in
  delivered run = Some ("data:image/png;base64," ++ blobData blob)%string
  /\ error (after run) = None
  /\ isLoading (after run) = false
  /\ collaboratorCalls run = [(original, maskBase64, prompt s)]
  /\ requests run = [generationRequest original maskBase64 (prompt s)].
Proof.
  intros Hv Himg Hw Hh Hread Hkey Hresp Himage run maskBase64.
  subst run maskBase64.
  rewrite (handleGenerate_validated env s img Hv Himg Hw Hh).
  cbn zeta. rewrite Hread.
  unfold editImageWithMask. rewrite Hkey, Hresp, Himage. repeat split.
Qed.

(** X22: with ink on the surface and a picture whose natural width or
    height is 0, the mask canvas has no area: its readback raises inside
    the [try], the user sees the browser's message for it, loading ends,
    and neither the file is read nor the wrapper called. *)
Theorem sizeless_image_is_reported (env : Environment) (s : State) (img : Image) :
  passesValidation s ->
  image s = Some img ->
  naturalWidth img = 0%nat \/ naturalHeight img = 0%nat ->
  let run := handleGenerate env s in
  error (after run) = Some indexSizeMessage
  /\ isLoading (after run) = false
  /\ collaboratorCalls run = []
  /\ requests run = []
  /\ delivered run = None.
Proof.
  intros (Hp & canvas & drawn & Hc & Hg & Hm) Himg Hsize run. subst run.
  unfold handleGenerate. rewrite Hp, Hc, Hg, Hm. cbn [negb].
  cbn [image setIsLoading setError]. rewrite Himg.
  match goal with |- context [getImageData ?m] =>
    assert (Ha : getImageData m = None) end.
  { unfold getImageData. rewrite maskSurface_area.
    destruct Hsize as [-> | ->]; [reflexivity|].
    now rewrite Nat.eqb_refl, orb_true_r. }
  rewrite Ha. repeat split.
Qed.

(** X8: no submission, whatever the state and whatever the world answers,
    calls the wrapper or the network more than once; a request implies a
    call of the wrapper, and a delivered image implies a request. *)
Theorem one_request_at_most (env : Environment) (s : State) :
  let run := handleGenerate env s in
  (List.length (collaboratorCalls run) <= 1)%nat
  /\ (List.length (requests run) <= 1)%nat
  /\ (List.length (requests run) <= List.length (collaboratorCalls run))%nat
  /\ (delivered run <> None -> List.length (requests run) = 1%nat).
Proof.
  intros run. subst run. unfold handleGenerate.
  destruct (isEmpty (trim (prompt s))); [cbn; repeat split; (lia || congruence)|].
  destruct (drawingCanvasRef s) as [canvas|];
    [|cbn; repeat split; (lia || congruence)].
  destruct (getImageData canvas); [|cbn; repeat split; (lia || congruence)].
  destruct (negb _); [cbn; repeat split; (lia || congruence)|].
  cbn [image setIsLoading setError].
  destruct (image s) as [img|]; [|cbn; repeat split; (lia || congruence)].
  destruct (getImageData (maskSurface img _));
    [|cbn; repeat split; (lia || congruence)].
  destruct (readAsDataURL env); [|cbn; repeat split; (lia || congruence)].
  unfold editImageWithMask.
  destruct (keyMissing env); [cbn; repeat split; (lia || congruence)|].
  destruct (generateContent env _); [cbn; repeat split; (lia || congruence)|].
  destruct (generatedImage _); cbn; repeat split; (lia || congruence).
Qed.

(** X9: a submission, failed or not, writes two cells of the state only,
    the error message and the loading flag: surfaces, history, cursor,
    image, prompt, tool and brush are as before. *)
Theorem submission_only_reports (env : Environment) (s : State) :
  exists (e : option string) (loading : bool),
    after (handleGenerate env s) = setIsLoading (setError s e) loading.
Proof.
  assert (Hsame : s = setIsLoading (setError s (error s)) (isLoading s))
    by now destruct s.
  unfold handleGenerate.
  destruct (isEmpty (trim (prompt s))).
  { exists (Some promptError), (isLoading s). now destruct s. }
  destruct (drawingCanvasRef s) as [canvas|];
    [|exists (error s), (isLoading s); exact Hsame].
  destruct (getImageData canvas); [|exists (error s), (isLoading s); exact Hsame].
  destruct (negb _).
  { exists (Some maskError), (isLoading s). now destruct s. }
  cbn [image setIsLoading setError].
  destruct (image s) as [img|]; [|eexists; eexists; now destruct s].
  destruct (getImageData (maskSurface img _)); [|eexists; eexists; now destruct s].
  destruct (readAsDataURL env); [|eexists; eexists; now destruct s].
  destruct (editImageWithMask _ _ _ _) as [sent [e | result]];
    eexists; eexists; now destruct s.
Qed.

(** X10: the data URL the wrapper returns for a generated image is read
    back by the wrapper's own [fileDataToBase64] as the bytes the service
    sent. *)
Theorem returned_image_round_trip (env : Environment)
    (original mask userPrompt : string) (response : GenerateContentResponse)
    (blob : Blob) :
  keyMissing env = false ->
  generateContent env (generationRequest original mask userPrompt) = inr response ->
  generatedImage response = Some blob ->
  exists result,
    editImageWithMask env original mask userPrompt =
      ([generationRequest original mask userPrompt], inr result)
    /\ fileDataToBase64 result = blobData blob.
Proof.
  intros Hkey Hresp Himage. unfold editImageWithMask.
  rewrite Hkey, Hresp, Himage. eexists. split; [reflexivity|].
  apply (payload_after_comma "data:image/png;base64"). reflexivity.
Qed.

End FurtherSubmission.

Section FurtherHistory.

Context {num : Type} {NM : Number num} {PF : Platform num}.

(** ** Surfaces and snapshots *)

Lemma readback_length (px : list Z) :
  List.length (readback px) = List.length px.
Proof.
  induction px as [px Hshort | r g b a rest IH] using pixels_ind.
  - destruct px as [|r [|g [|b [|a rest]]]]; try reflexivity. cbn in Hshort. lia.
  - cbn [readback]. destruct (a =? 0); cbn [List.length]; now rewrite IH.
Qed.

Lemma readback_idempotent (px : list Z) :
  readback (readback px) = readback px.
Proof.
  induction px as [px Hshort | r g b a rest IH] using pixels_ind.
  - destruct px as [|r [|g [|b [|a rest]]]]; try reflexivity. cbn in Hshort. lia.
  - cbn [readback]. destruct (a =? 0) eqn:E; cbn [readback].
    + now rewrite IH.
    + now rewrite E, IH.
Qed.

(** Putting a snapshot of a surface back on a surface of the same size
    shows that snapshot again. *)
Lemma restore_snapshot (c c' : Canvas) :
  wellSized c ->
  canvasWidth c' = canvasWidth c ->
  canvasHeight c' = canvasHeight c ->
  rasterOf (putImageData (rasterOf c) (clearRect c')) = rasterOf c.
Proof.
  intros Hsize Hw Hh. unfold rasterOf at 1.
  rewrite putImageData_same_size.
  - cbn [data rasterOf canvasWidth canvasHeight putImageData clearRect withBitmap].
    now rewrite readback_idempotent, Hw, Hh.
  - cbn. now rewrite Hw.
  - cbn. now rewrite Hh.
  - cbn [data rasterOf canvasWidth canvasHeight clearRect withBitmap].
    rewrite readback_length, Hw, Hh. exact Hsize.
Qed.

Lemma restore_readback (c c' : Canvas) (snap : ImageData) :
  getImageData c = Some snap ->
  wellSized c ->
  canvasWidth c' = canvasWidth c ->
  canvasHeight c' = canvasHeight c ->
  getImageData (putImageData snap (clearRect c')) = Some snap.
Proof.
  intros Hg Hsize Hw Hh. apply getImageData_some in Hg as (Ha & ->).
  rewrite getImageData_area.
  - now rewrite restore_snapshot.
  - rewrite <- Ha. unfold hasArea. cbn. now rewrite Hw, Hh.
Qed.

Lemma at_index_kept {A : Type} (arr : list A) (x : A) (i : Z) :
  0 <= i <= Z.of_nat (List.length arr) - 1 ->
  at_index (firstn (Z.to_nat (i + 1)) arr ++ [x]) i = at_index arr i.
Proof.
  intros Hi. unfold at_index.
  destruct (i <? 0) eqn:E; [apply Z.ltb_lt in E; lia|].
  rewrite nth_error_app1 by (rewrite firstn_length_le; lia).
  rewrite nth_error_firstn.
  replace (Z.to_nat i <? Z.to_nat (i + 1))%nat with true
    by (symmetry; apply Nat.ltb_lt; lia).
  reflexivity.
Qed.

(** X11: a stroke followed by an undo is undone on the surface too: with
    the surface in step with the current snapshot before the stroke, the
    undo shows that snapshot again and puts the cursor back on it. *)
Theorem undo_restores_surface (s : State) (canvas : Canvas) (snap : ImageData)
    (k : Stroke) :
  drawingCanvasRef s = Some canvas ->
  getImageData canvas = Some snap ->
  wellSized canvas ->
  0 <= historyIndex s ->
  currentSnapshot s = Some snap ->
  let s' := handleUndo (completeStroke k s) in
  historyIndex s' = historyIndex s
  /\ currentSnapshot s' = Some snap
  /\ exists canvas',
       drawingCanvasRef s' = Some canvas'
       /\ getImageData canvas' = Some snap.
Proof.
  intros Hc Hg Hsize Hi Hcur s'.
  assert (Ha : hasArea canvas = true) by now apply getImageData_some in Hg.
  assert (Hlen : historyIndex s <= Z.of_nat (List.length (history s)) - 1).
  { unfold currentSnapshot, at_index in Hcur.
    destruct (historyIndex s <? 0); [discriminate|].
    assert (Hlt : (Z.to_nat (historyIndex s) < List.length (history s))%nat).
    { apply nth_error_Some. congruence. }
    lia. }
  destruct (completeStroke_push k s canvas Hc Ha)
    as (c1 & Hc1 & Hw & Hh2 & Hh & Hx); [lia|].
  assert (Hidx : historyIndex (completeStroke k s) = historyIndex s + 1).
  { rewrite Hx, Hh, length_app, firstn_length_le by lia. cbn [List.length]. lia. }
  assert (Hsnap : at_index (history (completeStroke k s)) (historyIndex s)
                  = Some snap).
  { rewrite Hh, at_index_kept by lia. exact Hcur. }
  assert (Hundo : handleUndo (completeStroke k s) =
    setDrawingCanvas
      (setHistory (completeStroke k s) (history (completeStroke k s))
                  (historyIndex s))
      (putImageData snap (clearRect c1))).
  { unfold handleUndo, currentSnapshot.
    cbn [drawingCanvasRef history historyIndex setHistory].
    rewrite Hc1, Hidx.
    replace (historyIndex s + 1 >? 0) with true by (symmetry; apply Z.gtb_lt; lia).
    replace (historyIndex s + 1 - 1) with (historyIndex s) by lia.
    now rewrite Hsnap. }
  subst s'. rewrite Hundo. unfold currentSnapshot.
  cbn [drawingCanvasRef history historyIndex setHistory setDrawingCanvas setCanvases].
  split; [reflexivity|]. split; [exact Hsnap|].
  eexists. split; [reflexivity|].
  now apply (restore_readback canvas).
Qed.

(** X12: on a surface of the first snapshot's size, clear shows the first
    snapshot again and records it: the history is that snapshot twice,
    with the cursor on the second. *)
Theorem clear_shows_first_snapshot (s : State) (canvas origin : Canvas)
    (first : ImageData) (rest : list ImageData) :
  drawingCanvasRef s = Some canvas ->
  getImageData origin = Some first ->
  history s = first :: rest ->
  wellSized origin ->
  canvasWidth canvas = canvasWidth origin ->
  canvasHeight canvas = canvasHeight origin ->
  let s' := clearMask s in
  history s' = [first; first]
  /\ historyIndex s' = 1
  /\ exists canvas',
       drawingCanvasRef s' = Some canvas'
       /\ getImageData canvas' = Some first.
Proof.
  intros Hc Hg Hh Hsize Hw Hht s'. subst s'.
  pose proof (restore_readback origin canvas first Hg Hsize Hw Hht) as Hback.
  unfold clearMask, currentSnapshot.
  cbn [drawingCanvasRef history historyIndex setHistory].
  rewrite Hc, Hh. change (at_index (first :: rest) 0) with (Some first). cbv iota.
  set (t := setDrawingCanvas _ _).
  rewrite (saveToHistory_eq t (putImageData first (clearRect canvas)) first
             eq_refl Hback).
  subst t.
  cbn [history historyIndex setHistory setDrawingCanvas setCanvases drawingCanvasRef].
  rewrite splice_firstn by lia.
  repeat split. eexists. split; [reflexivity | exact Hback].
Qed.

Lemma handleUndo_canvas (s : State) (c : Canvas) :
  drawingCanvasRef s = Some c ->
  exists c', drawingCanvasRef (handleUndo s) = Some c'
             /\ canvasWidth c' = canvasWidth c
             /\ canvasHeight c' = canvasHeight c.
Proof.
  intros Hc. unfold handleUndo.
  destruct (historyIndex s >? 0); [|exists c; now repeat split].
  cbn [drawingCanvasRef setHistory]. rewrite Hc.
  destruct (currentSnapshot _).
  - eexists. split; [reflexivity|]. split; reflexivity.
  - exists c. now repeat split.
Qed.

(** X19: a stroke painted after an undo takes the place of the snapshot
    that was undone: the history keeps the entries below the old cursor and
    ends with the snapshot read from the surface as the stroke left it, and
    the cursor is where it was. *)
Theorem stroke_after_undo_replaces (s : State) (canvas : Canvas) (k : Stroke) :
  drawingCanvasRef s = Some canvas ->
  hasArea canvas = true ->
  0 < historyIndex s <= Z.of_nat (List.length (history s)) - 1 ->
  let s' := completeStroke k (handleUndo s) in
  (exists canvas' snap,
     drawingCanvasRef s' = Some canvas'
     /\ getImageData canvas' = Some snap
     /\ history s' = firstn (Z.to_nat (historyIndex s)) (history s) ++ [snap]
     /\ currentSnapshot s' = Some snap)
  /\ historyIndex s' = historyIndex s
  /\ List.length (history s') = Z.to_nat (historyIndex s + 1)
  /\ forall j, historyIndex s < j -> at_index (history s') j = None.
Proof.
  intros Hc Ha Hi s'.
  destruct (handleUndo_canvas s canvas Hc) as (c & Hcu & Hcw & Hch).
  assert (Hac : hasArea c = true).
  { rewrite <- Ha. now apply hasArea_same. }
  assert (Hidx : historyIndex (handleUndo s) = historyIndex s - 1).
  { rewrite handleUndo_index.
    destruct (Z.gtb_spec (historyIndex s) 0); [reflexivity | lia]. }
  destruct (completeStroke_push k (handleUndo s) c Hcu Hac)
    as (c' & Hc' & Hw' & Hh' & Hh & Hx); [lia|].
  rewrite Hidx, handleUndo_history in Hh.
  replace (historyIndex s - 1 + 1) with (historyIndex s) in Hh by lia.
  subst s'.
  assert (Hlen : List.length (history (completeStroke k (handleUndo s)))
                 = Z.to_nat (historyIndex s + 1)).
  { rewrite Hh, length_app, firstn_length_le by lia. cbn [List.length]. lia. }
  split.
  { exists c', (rasterOf c'). split; [exact Hc'|].
    split; [apply getImageData_area; rewrite <- Hac; now apply hasArea_same|].
    split; [exact Hh|].
    unfold currentSnapshot. rewrite Hx, Hh. apply at_index_last. }
  split; [rewrite Hx, Hlen; lia|].
  split; [exact Hlen|].
  intros j Hj. apply at_index_beyond. rewrite Hlen. lia.
Qed.



(** X14: a resize, in any arithmetic, replaces the two surfaces and writes
    nothing else: snapshots, cursor, prompt, tool and flags are as before. *)
Theorem resize_only_replaces_surfaces (container : option (num * num)) (s : State) :
  (exists ic dc, resizeCanvases container s = setCanvases s ic dc)
  /\ (exists ic dc, onResize container s = setCanvases s ic dc).
Proof.
  assert (Hsame : s = setCanvases s (imageCanvasRef s) (drawingCanvasRef s))
    by now destruct s.
  assert (Hkeep : exists ic dc, s = setCanvases s ic dc)
    by (exists (imageCanvasRef s), (drawingCanvasRef s); exact Hsame).
  assert (Hr : exists ic dc, resizeCanvases container s = setCanvases s ic dc).
  { unfold resizeCanvases.
    destruct (image s); [|exact Hkeep].
    destruct container as [[cw ch]|]; [|exact Hkeep].
    destruct (imageCanvasRef s); [|exact Hkeep].
    destruct (drawingCanvasRef s); [|exact Hkeep].
    destruct (naturalWidth _ =? 0)%nat; [exact Hkeep|].
    destruct (renderSize _ _ _ _). eauto. }
  split; [exact Hr|].
  unfold onResize. destruct (image s); [|exact Hkeep].
  destruct (_ && _); [exact Hr | exact Hkeep].
Qed.

Lemma midStroke_mode (e : Event) (s : State) (c : Canvas) :
  midStroke e = true ->
  drawingCanvasRef s = Some c ->
  exists c',
    drawingCanvasRef (handle e s) = Some c'
    /\ globalCompositeOperation c' = globalCompositeOperation c.
Proof.
  intros He Hc. destruct e; try discriminate He; cbn [handle]; eauto.
  unfold draw. destruct (negb (isDrawing s)); [eauto|].
  rewrite Hc. cbn. eauto.
Qed.

(** X15: the compositing mode of a stroke is the one of the tool selected
    at pointer-down; moves and a change of tool or size during the stroke
    do not alter it. *)
Theorem stroke_mode_is_fixed (p : Point) (events : list Event) (s : State)
    (canvas : Canvas) :
  drawingCanvasRef s = Some canvas ->
  forallb midStroke events = true ->
  exists canvas',
    drawingCanvasRef (run events (handle (PointerDown p) s)) = Some canvas'
    /\ globalCompositeOperation canvas' = compositeFor (tool s).
Proof.
  intros Hc Hmid.
  assert (H0 : exists c0, drawingCanvasRef (handle (PointerDown p) s) = Some c0
               /\ globalCompositeOperation c0 = compositeFor (tool s)).
  { cbn [handle]. unfold startDrawing. rewrite Hc. cbn. eauto. }
  revert H0. generalize (handle (PointerDown p) s). unfold run.
  induction events as [|e events IH]; intros s0 (c0 & Hc0 & Hm0); cbn [fold_left].
  - eauto.
  - cbn [forallb] in Hmid. apply andb_prop in Hmid as (He & Hrest).
    apply (IH Hrest).
    destruct (midStroke_mode e s0 c0 He Hc0) as (c1 & Hc1 & Hm1).
    exists c1. split; [exact Hc1 | congruence].
Qed.

Lemma alphas_solid_white (n : nat) :
  Forall (fun a => a = 255) (alphas (solid white n)).
Proof. induction n as [|n IH]; cbn; constructor; [reflexivity | exact IH]. Qed.

(** X16: the mask canvas has the image's natural size, four bytes for each
    of its pixels, and no pixel that is not fully opaque. *)
Theorem mask_is_opaque (img : Image) (s : State) :
  canvasWidth (composeMask img s) = naturalWidth img
  /\ canvasHeight (composeMask img s) = naturalHeight img
  /\ wellSized (composeMask img s)
  /\ Forall (fun a => a = 255) (alphas (bitmap (composeMask img s))).
Proof.
  destruct (composeMask_white img s) as (Hw & Hh & Hb).
  repeat split; [exact Hw | exact Hh | |].
  - unfold wellSized. now rewrite Hb, solid_length, Hw, Hh.
  - rewrite Hb. apply alphas_solid_white.
Qed.

End FurtherHistory.

Section FurtherPage.

Context {File : Type}.

(** ** The page *)

Lemma editor_follows_upload (actions : list (@AppAction File)) :
  showEditor (session actions) = hasOriginal (session actions).
Proof.
  unfold session.
  assert (H0 : showEditor (@appStart File) = hasOriginal (@appStart File))
    by reflexivity.
  revert H0. generalize (@appStart File).
  induction actions as [|x actions IH]; intros a Ha; cbn [fold_left].
  - exact Ha.
  - apply IH. destruct x; cbn; try reflexivity; exact Ha.
Qed.

(** X17: whatever the user does, the page shows exactly one of its three
    screens: the uploader, the editor or the result. *)
Theorem one_screen_at_a_time (actions : list (@AppAction File)) :
  let a := session actions in
  (rendersUploader a, rendersEditor a, rendersResult a) = (true, false, false)
  \/ (rendersUploader a, rendersEditor a, rendersResult a) = (false, true, false)
  \/ (rendersUploader a, rendersEditor a, rendersResult a) = (false, false, true).
Proof.
  intros a. pose proof (editor_follows_upload actions) as Hinv. fold a in Hinv.
  unfold rendersUploader, rendersEditor, rendersResult. rewrite Hinv.
  destruct (hasOriginal a), (hasEdited a); auto.
Qed.

(** X18: once a file is uploaded, Back to Editor shows the editor for that
    same file, whatever result was on display, and New Image or Start Over
    lead back to the uploader. *)
Theorem back_to_editor_keeps_image (actions : list (@AppAction File)) (file : File) :
  originalImage (session actions) = Some file ->
  let back := session (actions ++ [BackToEditorClicked]) in
  let reset := session (actions ++ [ResetClicked]) in
  rendersEditor back = true
  /\ originalImage back = Some file
  /\ rendersUploader reset = true
  /\ originalImage reset = None.
Proof.
  intros Hfile back reset. subst back reset. unfold session in *.
  rewrite !fold_left_app. cbn [fold_left act].
  pose proof (editor_follows_upload actions) as Hinv. unfold session in Hinv.
  unfold rendersEditor, rendersUploader, hasEdited, hasOriginal in *.
  cbn. rewrite Hinv, Hfile. repeat split.
Qed.

End FurtherPage.

(** * The properties on the sample session *)

Example loaded_state :
  history loaded = [blankSnapshot] /\ historyIndex loaded = 0
  /\ drawingCanvasRef loaded = Some blankCanvas.
Proof. repeat split. Qed.

Example inked_state :
  history inked = [blankSnapshot; inkedSnapshot] /\ historyIndex inked = 1
  /\ drawingCanvasRef inked = Some inkedCanvas.
Proof. repeat split. Qed.

(** The surfaces of the one-pixel-wide picture have no width, and nothing
    was recorded when it loaded. *)
Example collapsed_state :
  drawingCanvasRef collapsed = Some (createCanvas 0 49)
  /\ history collapsed = [] /\ historyIndex collapsed = -1.
Proof. repeat split. Qed.

(** In binary64 a 640 x 427 picture in a 640 x 480 container gets surfaces
    426 pixels high: 640 / (640 / 427) is rounded below 427. The largest
    rectangle of these proportions in the container is the picture's own
    640 x 427. *)
Example rounded_below_the_pixel :
  (let '(rw, rh) := renderSize (NM := binary64) 640 427 (ofNat 640) (ofNat 480) in
   (toLength rw, toLength rh)) = (640, 426)%nat
  /\ (let '(rw, rh) :=
        renderSize (NM := exactNumber) 640 427 (ofNat 640) (ofNat 480) in
      (toLength rw, toLength rh)) = (640, 427)%nat.
Proof. split; vm_compute; reflexivity. Qed.

(** C1: on the sample session the snapshot has ink on the left pixel only,
    yet the mask handed to the service is white on both pixels: the right
    pixel, where the ink's alpha is 0, is not black. *)
Theorem mask_is_white_without_ink :
  currentSnapshot ready = Some inkedSnapshot
  /\ alphas (data inkedSnapshot) = [179; 0]
  /\ option_map data (getImageData (composeMask photo ready))
     = Some [255; 255; 255; 255; 255; 255; 255; 255]
  /\ option_map data (getImageData (composeMask photo ready))
     <> Some [255; 255; 255; 255; 0; 0; 0; 255]
  /\ collaboratorCalls (handleGenerate decliningService ready)
     = [(upload,
         toDataURL (mkImageData 2 1 [255; 255; 255; 255; 255; 255; 255; 255]),
         request)].
Proof.
  repeat split. intros H. vm_compute in H. discriminate H.
Qed.





Lemma undo_all_strokes_witness :
  let painted := paint [dab; dab] loaded in
  historyIndex painted = (if hasArea blankCanvas then 2 else 0)
  /\ currentSnapshot (undoTimes 2 painted) = Some blankSnapshot
  /\ historyIndex (undoTimes 2 painted) = 0
  /\ forall n, 0 <= historyIndex (undoTimes n painted).
Proof.
  apply (undo_all_strokes loaded blankCanvas blankSnapshot [dab; dab]);
    reflexivity.
Defined.

Lemma push_discards_redo_witness :
  let s' := saveToHistory (handleUndo inked) in
  history s' =
    firstn (Z.to_nat (historyIndex (handleUndo inked) + 1))
           (history (handleUndo inked))
      ++ [blankSnapshot]
  /\ blankSnapshot = rasterOf restoredCanvas
  /\ historyIndex s' = Z.of_nat (List.length (history s')) - 1
  /\ currentSnapshot s' = Some blankSnapshot
  /\ forall j, historyIndex s' < j -> at_index (history s') j = None.
Proof.
  apply (push_discards_redo (handleUndo inked) restoredCanvas blankSnapshot).
  - reflexivity.
  - reflexivity.
  - vm_compute. discriminate.
Defined.

Lemma cursor_stays_valid_witness :
  cursorValid (saveToHistory inked)
  /\ cursorValid (handleUndo inked)
  /\ cursorValid (clearMask inked).
Proof.
  apply (cursor_stays_valid inked).
  split; vm_compute; discriminate.
Defined.

Lemma ready_passes_validation : passesValidation ready.
Proof.
  split; [reflexivity|]. exists inkedCanvas, inkedSnapshot. repeat split.
Defined.

Lemma failure_preserves_state_witness :
  let s' := after (handleGenerate decliningService ready) in
  image s' = image ready
  /\ history s' = history ready
  /\ historyIndex s' = historyIndex ready
  /\ prompt s' = prompt ready
  /\ drawingCanvasRef s' = drawingCanvasRef ready
  /\ imageCanvasRef s' = imageCanvasRef ready
  /\ (exists msg,
        error s' = Some msg /\ isEmpty msg = false
        /\ failureShown decliningService ready msg)
  /\ isLoading s' = false.
Proof.
  apply (failure_preserves_state decliningService ready).
  - exact ready_passes_validation.
  - reflexivity.
Defined.

(** C8 fails as stated: the service declined because of the prompt and put
    its ratings in the prompt feedback, with no candidate; the message of
    the failure does not carry them. *)
Lemma prompt_feedback_ratings_are_dropped :
  generatedImage promptBlocked = None
  /\ In ratings (availableRatings promptBlocked)
  /\ editImageWithMask blockingService upload upload request =
       ([generationRequest upload upload request],
        inl (ErrorObject (failurePrefix ++ noImageMessage)%string))
  /\ ~ includes (failurePrefix ++ noImageMessage) (JSON_stringify ratings).
Proof.
  split; [reflexivity|]. split; [now left|]. split; [reflexivity|].
  intros H. apply (includes_mentions "["%char) in H; [|reflexivity].
  vm_compute in H. discriminate H.
Qed.

Lemma safety_details_are_reported_witness :
  editImageWithMask decliningService upload upload request =
    ([generationRequest upload upload request],
     inl (ErrorObject
       (failurePrefix ++
        match candidates blocked with
        | Some (c :: _) =>
            match safetyRatings c with
            | Some r =>
                noImageMessage ++ " Safety feedback: " ++ JSON_stringify r
            | None => noImageMessage
            end
        | _ => noImageMessage
        end)%string)).
Proof.
  apply (safety_details_are_reported decliningService upload upload request blocked);
    reflexivity.
Defined.

(** C10 fails as stated: Clear Mask pressed before the picture has loaded
    leaves an empty history with the cursor on 0; the tap that follows
    pushes its snapshot, and the cursor is still 0. *)
Lemma tap_before_load_keeps_cursor :
  history early = []
  /\ historyIndex early = 0
  /\ List.length (history (stopDrawing (startDrawing (0, 0) early))) = 1%nat
  /\ historyIndex (stopDrawing (startDrawing (0, 0) early)) = 0.
Proof. repeat split. Qed.

Lemma empty_stroke_is_recorded_witness :
  let s' := stopDrawing (startDrawing (1, 0) inked) in
  history s' =
    firstn (Z.to_nat (historyIndex inked + 1)) (history inked) ++ [inkedSnapshot]
  /\ inkedSnapshot = rasterOf inkedCanvas
  /\ historyIndex s' =
       Z.min (historyIndex inked + 1) (Z.of_nat (List.length (history inked)))
  /\ currentSnapshot s' = Some inkedSnapshot
  /\ option_map bitmap (drawingCanvasRef s') = Some (bitmap inkedCanvas)
  /\ Z.of_nat (List.length (history s')) = historyIndex s' + 1.
Proof.
  apply (empty_stroke_is_recorded inked inkedCanvas inkedSnapshot (1, 0)).
  - reflexivity.
  - reflexivity.
  - vm_compute. discriminate.
Defined.



(** * The further properties on the sample session *)

Lemma fileDataToBase64_strips_header_witness :
  fileDataToBase64 ("data:image/png;base64" ++ String "," "AAAA") = "AAAA"%string
  /\ fileDataToBase64 "data:image/png;base64" = "data:image/png;base64"%string.
Proof.
  apply (fileDataToBase64_strips_header "data:image/png;base64" "AAAA").
  reflexivity.
Defined.

Lemma wordless_is_blank : Blank (prompt wordless).
Proof.
  change (Blank (utf8 [32] ++ utf8 [194; 160] ++ utf8 [226; 128; 168]
                 ++ utf8 [9] ++ EmptyString)%string).
  repeat (constructor; [vm_compute; tauto|]). constructor.
Defined.

Lemma blank_prompt_is_rejected_witness :
  handleGenerate answeringService wordless
  = mkSubmission (setError wordless (Some promptError)) [] [] None.
Proof.
  apply (blank_prompt_is_rejected answeringService wordless).
  exact wordless_is_blank.
Defined.




Lemma transport_failure_is_reported_witness :
  let run := handleGenerate offlineService ready in
  error (after run) = Some ("Failed to edit image: " ++ describe offline)%string
  /\ isLoading (after run) = false
  /\ List.length (requests run) = 1%nat
  /\ delivered run = None.
Proof.
  apply (transport_failure_is_reported offlineService ready photo upload offline
           ready_passes_validation); try reflexivity; discriminate.
Defined.

Lemma unreadable_file_is_reported_witness :
  let run := handleGenerate unreadableUpload ready in
  error (after run) = Some unknownErrorMessage
  /\ isLoading (after run) = false
  /\ collaboratorCalls run = []
  /\ requests run = []
  /\ delivered run = None.
Proof.
  apply (unreadable_file_is_reported unreadableUpload ready photo
           ready_passes_validation); try reflexivity; discriminate.
Defined.

Lemma success_delivers_image_witness :
  let run := handleGenerate answeringService ready in
  let maskBase64 := toDataURL (rasterOf (composeMask photo ready)) in
  delivered run = Some ("data:image/png;base64," ++ blobData (mkBlob "QUJD"))%string
  /\ error (after run) = None
  /\ isLoading (after run) = false
  /\ collaboratorCalls run = [(upload, maskBase64, prompt ready)]
  /\ requests run = [generationRequest upload maskBase64 (prompt ready)].
Proof.
  apply (success_delivers_image answeringService ready photo upload answer
           (mkBlob "QUJD") ready_passes_validation); try reflexivity; discriminate.
Defined.

Lemma stalled_passes_validation : passesValidation stalled.
Proof.
  split; [reflexivity|]. exists inkedCanvas, inkedSnapshot. repeat split.
Defined.

Lemma sizeless_image_is_reported_witness :
  let run := handleGenerate answeringService stalled in
  error (after run) = Some indexSizeMessage
  /\ isLoading (after run) = false
  /\ collaboratorCalls run = []
  /\ requests run = []
  /\ delivered run = None.
Proof.
  apply (sizeless_image_is_reported answeringService stalled broken
           stalled_passes_validation); [reflexivity | left; reflexivity].
Defined.

Lemma returned_image_round_trip_witness :
  exists result,
    editImageWithMask answeringService upload upload request =
      ([generationRequest upload upload request], inr result)
    /\ fileDataToBase64 result = blobData (mkBlob "QUJD").
Proof.
  apply (returned_image_round_trip answeringService upload upload request answer
           (mkBlob "QUJD")); reflexivity.
Defined.

Lemma undo_restores_surface_witness :
  let s' := handleUndo (completeStroke dab loaded) in
  historyIndex s' = historyIndex loaded
  /\ currentSnapshot s' = Some blankSnapshot
  /\ exists canvas',
       drawingCanvasRef s' = Some canvas'
       /\ getImageData canvas' = Some blankSnapshot.
Proof.
  apply (undo_restores_surface loaded blankCanvas blankSnapshot dab).
  - reflexivity.
  - reflexivity.
  - reflexivity.
  - vm_compute. discriminate.
  - reflexivity.
Defined.

Lemma clear_shows_first_snapshot_witness :
  let s' := clearMask inked in
  history s' = [blankSnapshot; blankSnapshot]
  /\ historyIndex s' = 1
  /\ exists canvas',
       drawingCanvasRef s' = Some canvas'
       /\ getImageData canvas' = Some blankSnapshot.
Proof.
  apply (clear_shows_first_snapshot inked inkedCanvas blankCanvas blankSnapshot
           [inkedSnapshot]);
    reflexivity.
Defined.

Lemma stroke_after_undo_replaces_witness :
  let s' := completeStroke dab (handleUndo inked) in
  (exists canvas' snap,
     drawingCanvasRef s' = Some canvas'
     /\ getImageData canvas' = Some snap
     /\ history s' = firstn (Z.to_nat (historyIndex inked)) (history inked) ++ [snap]
     /\ currentSnapshot s' = Some snap)
  /\ historyIndex s' = historyIndex inked
  /\ List.length (history s') = Z.to_nat (historyIndex inked + 1)
  /\ forall j, historyIndex inked < j -> at_index (history s') j = None.
Proof.
  apply (stroke_after_undo_replaces inked inkedCanvas dab).
  - reflexivity.
  - reflexivity.
  - split; vm_compute; [reflexivity | discriminate].
Defined.

Lemma stroke_mode_is_fixed_witness :
  exists canvas',
    drawingCanvasRef (run hesitation (handle press loaded)) = Some canvas'
    /\ globalCompositeOperation canvas' = compositeFor (tool loaded).
Proof.
  apply (stroke_mode_is_fixed (PF := gridPlatform) (0, 0) hesitation loaded
           blankCanvas); reflexivity.
Defined.

Lemma back_to_editor_keeps_image_witness :
  let back := session (visit ++ [BackToEditorClicked]) in
  let reset := session (visit ++ [ResetClicked]) in
  rendersEditor back = true
  /\ originalImage back = Some "cat.png"%string
  /\ rendersUploader reset = true
  /\ originalImage reset = None.
Proof.
  apply (back_to_editor_keeps_image visit "cat.png"%string). reflexivity.
Defined.
